(** * Analytics aggregation and reporting: service and controller

    A shallow embedding of [src/services/analytics.service.js],
    [src/controllers/analytics.controller.js], the schema of
    [src/models/analytics.model.js] and [getIntegrations] of
    [src/services/integration.service.js].

    Conventions of the embedding.
    - A JavaScript value that is either [undefined] or a string (a query
      parameter, a route parameter) is an [option string]; [truthy] is
      JavaScript's truthiness on it.
    - A JavaScript number is an IEEE-754 double, Rocq's primitive [float]
      with the operations of binary64.  The four figures of an analytics
      document are such numbers (the schema types them [Number]), and the
      arithmetic of the code and of the store's [$sum] is read over them,
      roundings included.
    - A date is its time value, the milliseconds since the epoch ([Z]);
      [new Date(s)] is a parameter [Date_new] of the model.
    - An identifier is an [ObjectId] in a stored document and a string in a
      request.  Mongoose casts the strings a [find] filter gives for an
      ObjectId path and rejects the query when one does not cast; it does
      not cast the stages of an [aggregate] pipeline, so there the store
      compares the string itself with the stored ObjectIds, and a string
      never equals an ObjectId.  Which strings cast, and to what, is a
      parameter [cast] of the model.
    - The document store is a list of documents threaded through a small
      state-and-error monad [M]; an [async] function is a computation in [M],
      a rejected promise is the outcome [Rejected]. *)

From Stdlib Require Import Ascii String QArith Qcanon Qround Floats.
From stdpp Require Import base numbers option list strings gmap sorting pretty.

Local Open Scope Z_scope.

(** ** JavaScript values *)

(** [undefined] or a string. *)
Definition JsString := option string.

(** Truthiness: [undefined] and the empty string are falsy. *)
Definition truthy (v : JsString) : bool :=
  match v with
  | None => false
  | Some s => negb (String.eqb s "")
  end.

(** Truthiness of a value that is [null] ([None]) or an array: every
    array, the empty one too, is truthy. *)
Definition truthy_array {A} (v : option (list A)) : bool :=
  match v with
  | None => false
  | Some _ => true
  end.

(** [String(v)], as a template literal converts an embedded value. *)
Definition js_to_string (v : JsString) : string :=
  match v with
  | None => "undefined"
  | Some s => s
  end.

(** [x || d] on exact numbers: [0] is the falsy number. *)
Definition Z_or (x d : Z) : Z := if Z.eqb x 0 then d else x.
Definition Qc_or (x d : Qc) : Qc := if Qc_eq_dec x 0%Qc then d else x.

(** A JavaScript number. *)
Definition JsNumber := float.
Bind Scope float_scope with JsNumber.

(** The falsy numbers are [0], [-0] and [NaN]. *)
Definition Number_falsy (x : JsNumber) : bool :=
  PrimFloat.eqb x 0%float || PrimFloat.is_nan x.

(** [x || d] on numbers. *)
Definition Number_or (x d : JsNumber) : JsNumber :=
  if Number_falsy x then d else x.

(** The length of an array, as a number. *)
Definition Number_of_nat (n : nat) : JsNumber :=
  PrimFloat.of_uint63 (Uint63.of_Z (Z.of_nat n)).

(** A number that is neither [NaN] nor infinite, and the rational it
    stands for ([0] for the others). *)
Definition Number_finite (x : JsNumber) : bool :=
  match Prim2SF x with
  | S754_zero _ | S754_finite _ _ _ => true
  | S754_infinity _ | S754_nan => false
  end.

Definition Number_exact (x : JsNumber) : Qc :=
  match Prim2SF x with
  | S754_finite s m e =>
      Q2Qc ((if s then -1 else 1) * inject_Z (Z.pos m) * 2 ^ e)%Q
  | _ => 0%Qc
  end.

(** [x.toFixed(f)] over exact rationals: the sign is split off, the integer
    [n] nearest to [x * 10^f] is taken (the larger one on a tie), and its
    decimal digits are padded with zeros to [f + 1] places before the point
    is inserted.  (From [10^21] on JavaScript prints an exponent instead;
    that range is not modelled.) *)
Fixpoint pad_zeros (k : nat) (s : string) : string :=
  match k with
  | O => s
  | S k' => pad_zeros k' (String "0"%char s)
  end.

Definition String_take (k : nat) (s : string) : string :=
  String.substring 0 k s.
Definition String_drop (k : nat) (s : string) : string :=
  String.substring k (String.length s - k) s.

Definition toFixed (x : Qc) (f : nat) : string :=
  let neg := bool_decide (x < 0)%Qc in
  let a : Qc := if neg then (- x)%Qc else x in
  let n : Z := Qfloor (Qplus (Qmult (this a) (inject_Z (10 ^ Z.of_nat f))) (1 # 2)) in
  let m := pretty n in
  let m := pad_zeros (S f - String.length m) m in
  let k := (String.length m - f)%nat in
  let body :=
    if Nat.eqb f 0 then m else String_take k m +:+ "." +:+ String_drop k m in
  if neg then "-" +:+ body else body.

(** [x.toFixed(f)] of a number: a number that is not finite prints as
    [String(x)] does, a finite one by the rational it stands for. *)
Definition Number_toFixed (x : JsNumber) (f : nat) : string :=
  match Prim2SF x with
  | S754_nan => "NaN"
  | S754_infinity false => "Infinity"
  | S754_infinity true => "-Infinity"
  | _ => toFixed (Number_exact x) f
  end.

(** ** Identifiers *)

(** A MongoDB ObjectId, by the hexadecimal digits of its twelve bytes. *)
Record ObjectId := mkObjectId {
  ObjectId_hex : string
}.

Global Instance ObjectId_eq_dec : EqDecision ObjectId.
Proof. solve_decision. Defined.

(** Mongoose's cast of a string to an ObjectId; [None] when the string is
    not one. *)
Definition Cast := string -> option ObjectId.

(** ** Data model *)

(** The Analytics schema ([src/models/analytics.model.js]). *)
Record Analytics := mkAnalytics {
  campaignId : ObjectId;
  companyId : option ObjectId;
  date : Z;
  channel : string;
  impressions : JsNumber;
  clicks : JsNumber;
  conversions : JsNumber;
  cost : JsNumber;
  createdAt : Z;
  updatedAt : option Z
}.

(** An Integration document, as far as [getIntegrations] looks at it. *)
Record Integration := mkIntegration {
  i_companyId : ObjectId;
  i_platform : string
}.

(** The collections behind the two Mongoose models. *)
Record Store := mkStore {
  analytics : list Analytics;
  integrations : list Integration
}.

(** ** Promises over the store *)

Inductive outcome (A : Type) : Type :=
| Resolved (a : A)
| Rejected (e : string).
Arguments Resolved {A} a.
Arguments Rejected {A} e.

Definition M (A : Type) : Type := Store -> outcome A * Store.

Definition ret {A} (a : A) : M A := fun s => (Resolved a, s).
Definition throw {A} (e : string) : M A := fun s => (Rejected e, s).
Definition bind {A B} (m : M A) (k : A -> M B) : M B :=
  fun s =>
    match m s with
    | (Resolved a, s') => k a s'
    | (Rejected e, s') => (Rejected e, s')
    end.

Notation "'await' x <- m ;; k" := (bind m (fun x => k))
  (at level 100, x name, m at next level, right associativity).

(** [try { ... } catch (error) { ... }] around an awaited computation. *)
Definition try_catch {A} (m : M A) (handler : string -> M A) : M A :=
  fun s =>
    match m s with
    | (Resolved a, s') => (Resolved a, s')
    | (Rejected e, s') => handler e s'
    end.

Definition result {A} (m : M A) (s : Store) : outcome A := fst (m s).
Definition final {A} (m : M A) (s : Store) : Store := snd (m s).

(** ** The store's query language *)

(** What a filter holds for an ObjectId path: the string the service wrote
    there, or the ObjectId a cast has made of it. *)
Inductive IdFilter :=
| IdString (s : string)
| IdObject (o : ObjectId).

(** A filter document: each field that is set constrains the documents. *)
Record Query := mkQuery {
  q_companyId : option IdFilter;
  q_campaignId : option IdFilter;
  q_date : option (Z * Z)          (* { $gte: lo, $lte: hi } *)
}.

Definition empty_query : Query := mkQuery None None None.
Definition set_companyId (c : string) (q : Query) : Query :=
  mkQuery (Some (IdString c)) (q_campaignId q) (q_date q).
Definition set_campaignId (c : string) (q : Query) : Query :=
  mkQuery (q_companyId q) (Some (IdString c)) (q_date q).
Definition set_date (lo hi : Z) (q : Query) : Query :=
  mkQuery (q_companyId q) (q_campaignId q) (Some (lo, hi)).

(** The store's equality of a filter value and a stored ObjectId: values of
    different types are different. *)
Definition id_matches (f : IdFilter) (o : ObjectId) : bool :=
  match f with
  | IdString _ => false
  | IdObject o' => bool_decide (o = o')
  end.

Definition matches (q : Query) (r : Analytics) : bool :=
  match q_companyId q with
  | None => true
  | Some f =>
      match companyId r with
      | Some o => id_matches f o
      | None => false
      end
  end
  && match q_campaignId q with
     | None => true
     | Some f => id_matches f (campaignId r)
     end
  && match q_date q with
     | None => true
     | Some (lo, hi) => (lo <=? date r) && (date r <=? hi)
     end.

(** Mongoose's cast of a filter by the schema, before a [find] is sent:
    the strings on the ObjectId paths become ObjectIds, and the cast fails
    when one of them is no ObjectId. *)
Definition cast_id (cast : Cast) (f : option IdFilter) : option (option IdFilter) :=
  match f with
  | None => Some None
  | Some (IdObject o) => Some (Some (IdObject o))
  | Some (IdString s) =>
      match cast s with
      | Some o => Some (Some (IdObject o))
      | None => None
      end
  end.

Definition cast_query (cast : Cast) (q : Query) : option Query :=
  match cast_id cast (q_companyId q), cast_id cast (q_campaignId q) with
  | Some company, Some campaign => Some (mkQuery company campaign (q_date q))
  | _, _ => None
  end.

(** The message of Mongoose's [CastError]. *)
Definition CastError : string := "Cast to ObjectId failed".

(** [.sort({ date: 1 })] and [.sort({ date: -1 })]. *)
Inductive SortSpec := DateAsc | DateDesc.

Definition date_le (a b : Analytics) : Prop := date a <= date b.
Definition date_ge (a b : Analytics) : Prop := date b <= date a.

Global Instance date_le_dec : RelDecision date_le.
Proof. intros a b. unfold date_le. apply _. Defined.
Global Instance date_ge_dec : RelDecision date_ge.
Proof. intros a b. unfold date_ge. apply _. Defined.

Definition sort_docs (o : SortSpec) (l : list Analytics) : list Analytics :=
  match o with
  | DateAsc => merge_sort date_le l
  | DateDesc => merge_sort date_ge l
  end.

Definition apply_sort (o : option SortSpec) (l : list Analytics) :=
  match o with
  | None => l
  | Some o => sort_docs o l
  end.

Definition apply_limit (n : option nat) (l : list Analytics) :=
  match n with
  | None => l
  | Some n => take n l
  end.

(** [Analytics.find(q).sort(o).limit(n).lean()]: the filter is cast, and
    the query is rejected when the cast fails. *)
Definition Analytics_find (cast : Cast) (q : Query) (o : option SortSpec)
    (n : option nat) : M (list Analytics) :=
  fun s =>
    match cast_query cast q with
    | None => (Rejected CastError, s)
    | Some q =>
        (Resolved (apply_limit n (apply_sort o (List.filter (matches q) (analytics s)))), s)
    end.

(** [new Analytics(doc).save()], the store's insertion. *)
Definition Analytics_save (doc : Analytics) : M Analytics :=
  fun s => (Resolved doc, mkStore (analytics s ++ [doc]) (integrations s)).

(** [Integration.find({ companyId }).lean()], cast like every [find]. *)
Definition Integration_find (cast : Cast) (c : string) : M (list Integration) :=
  fun s =>
    match cast c with
    | None => (Rejected CastError, s)
    | Some o =>
        (Resolved (List.filter (fun i => bool_decide (i_companyId i = o)) (integrations s)), s)
    end.

(** The accumulators of a [$group] stage with the four [$sum]s. *)
Record Sums := mkSums {
  totalImpressions : JsNumber;
  totalClicks : JsNumber;
  totalConversions : JsNumber;
  totalCost : JsNumber
}.

(** A [$sum] starts at [0] and adds the documents of its group one after
    the other, in double arithmetic. *)
Definition Sums_zero : Sums := mkSums 0%float 0%float 0%float 0%float.
Definition Sums_add (a : Sums) (r : Analytics) : Sums :=
  mkSums (totalImpressions a + impressions r)%float
         (totalClicks a + clicks r)%float
         (totalConversions a + conversions r)%float
         (totalCost a + cost r)%float.

(** [{ $match: q }, { $group: { _id: key, ... } }]: the pipeline is sent as
    it is written, without a cast; the matching documents are folded, in
    the order of the collection, into one accumulator per value of the
    group key. *)
Definition group_step `{Countable K} (key : Analytics -> K)
    (g : gmap K Sums) (r : Analytics) : gmap K Sums :=
  <[key r := Sums_add (default Sums_zero (g !! key r)) r]> g.

Definition group_docs `{Countable K} (key : Analytics -> K)
    (docs : list Analytics) : gmap K Sums :=
  fold_left (group_step key) docs ∅.

Definition Analytics_aggregate `{Countable K} (q : Query) (key : Analytics -> K)
  : M (list (K * Sums)) :=
  fun s => (Resolved (map_to_list (group_docs key (List.filter (matches q) (analytics s)))), s).

(** ** Service layer *)

(** The [params] object of the analytics service: every field may be
    absent. *)
Module Params.
Record t := mk {
  companyId : JsString;
  campaignId : JsString;
  start : JsString;
  end_ : JsString
}.
End Params.

(** The totals object [getOverview] returns. *)
Module Overview.
Record t := mk {
  impressions : JsNumber;
  clicks : JsNumber;
  conversions : JsNumber;
  cost : JsNumber
}.
End Overview.

(** A row of the channel breakdown, as the [$project] stage shapes it. *)
Module ChannelRow.
Record t := mk {
  channel : string;
  impressions : JsNumber;
  clicks : JsNumber;
  conversions : JsNumber;
  cost : JsNumber
}.
End ChannelRow.

Definition newline : string := String (ascii_of_nat 10) "".

(** [src/services/integration.service.js] *)
Module integrationService.
Section WithCast.
Variable cast : Cast.

Definition getIntegrations (companyId : JsString) : M (list Integration) :=
if negb (truthy companyId) then
  throw "companyId is required to retrieve integrations."
else
  await integrations <- Integration_find cast (js_to_string companyId) ;;
  ret integrations.

End WithCast.
End integrationService.

(** [src/services/analytics.service.js] *)
Module analyticsService.
Section WithDate.

(** Mongoose's cast of a string to an ObjectId. *)
Variable cast : Cast.

(** [new Date(s)]: the time value of the date a string denotes.  Strings
    that denote no date are outside the model. *)
Variable Date_new : string -> Z.

Definition with_date_range (start end_ : JsString) (query : Query) : Query :=
if truthy start && truthy end_ then
  set_date (Date_new (js_to_string start)) (Date_new (js_to_string end_)) query
else query.

Definition getOverview (params : Params.t) : M Overview.t :=
let companyId := Params.companyId params in
let start := Params.start params in
let end_ := Params.end_ params in
let query := empty_query in
let query :=
  if truthy companyId then set_companyId (js_to_string companyId) query
  else query in
let query := with_date_range start end_ query in
(* [_id: null]: one group for all the matching documents *)
await aggregation <- Analytics_aggregate query (fun _ => tt) ;;
match aggregation with
| [] => (* [aggregation.length === 0] *)
    ret (Overview.mk 0%float 0%float 0%float 0%float)
| (_, result) :: _ => (* [aggregation[0]] *)
    ret (Overview.mk (Number_or (totalImpressions result) 0%float)
                     (Number_or (totalClicks result) 0%float)
                     (Number_or (totalConversions result) 0%float)
                     (Number_or (totalCost result) 0%float))
end.

(** [null] is [None]. *)
Definition getCampaignAnalytics (params : Params.t)
: M (option (list Analytics)) :=
let campaignId := Params.campaignId params in
let start := Params.start params in
let end_ := Params.end_ params in
if negb (truthy campaignId) then ret None
else
  let query := set_campaignId (js_to_string campaignId) empty_query in
  let query := with_date_range start end_ query in
  await data <- Analytics_find cast query (Some DateAsc) None ;;
  ret (Some data).

Definition project_channel (g : string * Sums) : ChannelRow.t :=
ChannelRow.mk (fst g)
              (totalImpressions (snd g))
              (totalClicks (snd g))
              (totalConversions (snd g))
              (totalCost (snd g)).

Definition getChannelAnalytics (params : Params.t) : M (list ChannelRow.t) :=
let companyId := Params.companyId params in
let campaignId := Params.campaignId params in
let start := Params.start params in
let end_ := Params.end_ params in
let query := empty_query in
let query :=
  if truthy companyId then set_companyId (js_to_string companyId) query
  else query in
let query :=
  if truthy campaignId then set_campaignId (js_to_string campaignId) query
  else query in
let query := with_date_range start end_ query in
await groups <- Analytics_aggregate query channel ;;
ret (map project_channel groups).

(** [item.cost / (item.clicks || 1)] *)
Definition item_cpc (item : Analytics) : JsNumber :=
(cost item / Number_or (clicks item) 1)%float.

Definition high_cpc_message (campaignId : JsString) (averageCPC : JsNumber) : string :=
"Campaign " +:+ js_to_string campaignId
  +:+ " has a high average CPC of $" +:+ Number_toFixed averageCPC 2 +:+ ". "
  +:+ newline
  +:+ "       Consider refining keywords or targeting to reduce costs.".

Definition performing_well_message (campaignId : JsString) (averageCPC : JsNumber) : string :=
"Campaign " +:+ js_to_string campaignId
  +:+ " is performing well with an average CPC of $" +:+ Number_toFixed averageCPC 2 +:+ ". "
  +:+ newline
  +:+ "       Consider increasing budget or expanding audience.".

Definition getRecommendations (campaignId : JsString) : M (list string) :=
if negb (truthy campaignId) then
  ret [ "Consider shifting budget to high-conversion channels.";
        "Explore retargeting if conversions are below target." ]
else
  await recentData <-
    Analytics_find cast (set_campaignId (js_to_string campaignId) empty_query)
                   (Some DateDesc) (Some 7%nat) ;;
  if (length recentData =? 0)%nat then
    ret [ "No recent analytics data available for this campaign." ]
  else
    let averageCPC :=
      (fold_left (fun acc item => acc + item_cpc item) recentData 0
       / Number_of_nat (length recentData))%float in
    if (2 <? averageCPC)%float then
      ret [ high_cpc_message campaignId averageCPC ]
    else
      ret [ performing_well_message campaignId averageCPC ].

End WithDate.
End analyticsService.

(** ** Controller layer *)

(** The parts of an Express request the analytics handlers read. *)
Module Request.
Record t := mk {
  params_campaignId : JsString;
  query_companyId : JsString;
  query_campaignId : JsString;
  query_start : JsString;
  query_end : JsString
}.
End Request.

(** [res.status(code).json(body)]: the status and the fields of the body;
    a field the handler does not write is [None]. *)
Module Response.
Record t (D : Type) := mk {
  status : Z;
  success : bool;
  data : option D;
  message : option string
}.
Arguments mk {D}.
Arguments status {D}.
Arguments success {D}.
Arguments data {D}.
Arguments message {D}.
End Response.

(** What [require("../services/analytics.service")] exports. *)
Record AnalyticsService := mkAnalyticsService {
  svc_getOverview : Params.t -> M Overview.t;
  svc_getCampaignAnalytics : Params.t -> M (option (list Analytics));
  svc_getChannelAnalytics : Params.t -> M (list ChannelRow.t);
  svc_getRecommendations : JsString -> M (list string)
}.

(** [src/controllers/analytics.controller.js].  The [console.error] of a
    [catch] block writes to the log only and is left out. *)
Module analyticsController.
Section WithService.

Variable analyticsService : AnalyticsService.

Definition getOverview (req : Request.t) : M (Response.t Overview.t) :=
try_catch
  (let companyId := Request.query_companyId req in
   let start := Request.query_start req in
   let end_ := Request.query_end req in
   await overviewData <-
     svc_getOverview analyticsService (Params.mk companyId None start end_) ;;
   ret (Response.mk 200 true (Some overviewData) None))
  (fun error =>
     ret (Response.mk 500 false None
            (Some "Failed to retrieve analytics overview."))).

Definition getCampaignAnalytics (req : Request.t)
: M (Response.t (option (list Analytics))) :=
try_catch
  (let campaignId := Request.params_campaignId req in
   let start := Request.query_start req in
   let end_ := Request.query_end req in
   await campaignMetrics <-
     svc_getCampaignAnalytics analyticsService
       (Params.mk None campaignId start end_) ;;
   if negb (truthy_array campaignMetrics) then
     ret (Response.mk 404 false None
            (Some ("No analytics found for campaign ID: "
                     +:+ js_to_string campaignId)))
   else
     ret (Response.mk 200 true (Some campaignMetrics) None))
  (fun error =>
     ret (Response.mk 500 false None
            (Some "Failed to retrieve campaign analytics."))).

Definition getChannelAnalytics (req : Request.t)
: M (Response.t (list ChannelRow.t)) :=
try_catch
  (let companyId := Request.query_companyId req in
   let campaignId := Request.query_campaignId req in
   let start := Request.query_start req in
   let end_ := Request.query_end req in
   await channelData <-
     svc_getChannelAnalytics analyticsService
       (Params.mk companyId campaignId start end_) ;;
   ret (Response.mk 200 true (Some channelData) None))
  (fun error =>
     ret (Response.mk 500 false None
            (Some "Failed to retrieve channel analytics."))).

Definition getRecommendations (req : Request.t)
: M (Response.t (list string)) :=
try_catch
  (let campaignId := Request.query_campaignId req in
   await recommendations <-
     svc_getRecommendations analyticsService campaignId ;;
   ret (Response.mk 200 true (Some recommendations) None))
  (fun error =>
     ret (Response.mk 500 false None
            (Some "Failed to retrieve analytics recommendations."))).

End WithService.
End analyticsController.

(** The service the controller is linked against. *)
Definition the_analyticsService (cast : Cast) (Date_new : string -> Z)
  : AnalyticsService :=
  mkAnalyticsService (analyticsService.getOverview Date_new)
                     (analyticsService.getCampaignAnalytics cast Date_new)
                     (analyticsService.getChannelAnalytics Date_new)
                     (analyticsService.getRecommendations cast).

(** ** Sample data *)

(** An instance of [Date_new] for the examples: a date-only ISO string
    [YYYY-MM-DD] denotes midnight UTC of that day. *)
Definition digit_of (c : ascii) : option Z :=
  let n := Z.of_nat (nat_of_ascii c) in
  if (48 <=? n) && (n <=? 57) then Some (n - 48) else None.

Fixpoint number_of (acc : Z) (s : string) : option Z :=
  match s with
  | EmptyString => Some acc
  | String c s' =>
      match digit_of c with
      | Some d => number_of (10 * acc + d) s'
      | None => None
      end
  end.

Definition days_from_civil (y m d : Z) : Z :=
  let y := if m <=? 2 then y - 1 else y in
  let era := y / 400 in
  let yoe := y - era * 400 in
  let doy := (153 * (if 2 <? m then m - 3 else m + 9) + 2) / 5 + d - 1 in
  let doe := yoe * 365 + yoe / 4 - yoe / 100 + doy in
  era * 146097 + doe - 719468.

Definition Date_new_iso (s : string) : Z :=
  match number_of 0 (String.substring 0 4 s),
        number_of 0 (String.substring 5 2 s),
        number_of 0 (String.substring 8 2 s) with
  | Some y, Some m, Some d => days_from_civil y m d * 86400000
  | _, _, _ => 0
  end.

(** An instance of [cast] for the examples: the strings of 24 hexadecimal
    digits are the ObjectIds, whatever the case of their letters. *)
Definition ascii_lower (c : ascii) : ascii :=
  let n := nat_of_ascii c in
  if (65 <=? n)%nat && (n <=? 90)%nat then ascii_of_nat (n + 32) else c.

Fixpoint String_map (f : ascii -> ascii) (s : string) : string :=
  match s with
  | EmptyString => EmptyString
  | String c s' => String (f c) (String_map f s')
  end.

Definition is_hex_digit (c : ascii) : bool :=
  let n := nat_of_ascii c in
  ((48 <=? n)%nat && (n <=? 57)%nat)
  || ((65 <=? n)%nat && (n <=? 70)%nat)
  || ((97 <=? n)%nat && (n <=? 102)%nat).

Definition ObjectId_of_hex : Cast :=
  fun s =>
    if (String.length s =? 24)%nat
       && forallb is_hex_digit (list_ascii_of_string s)
    then Some (mkObjectId (String_map ascii_lower s))
    else None.

(** Identifiers for the examples, as the strings a request carries. *)
Definition acme : string := "65a1f0000000000000000a01".
Definition globex : string := "65a1f0000000000000000a02".
Definition cmp1 : string := "65a1f0000000000000000c01".
Definition cmp2 : string := "65a1f0000000000000000c02".
Definition cmp3 : string := "65a1f0000000000000000c03".
Definition cmp7 : string := "65a1f0000000000000000c07".
Definition cmp9 : string := "65a1f0000000000000000c09".

Definition sample_doc (campaign company day channel : string)
    (impressions clicks conversions cost : JsNumber) : Analytics :=
  mkAnalytics (mkObjectId campaign) (Some (mkObjectId company))
              (Date_new_iso day) channel
              impressions clicks conversions cost
              (Date_new_iso day) None.

Definition sample_store : Store :=
  mkStore
    [ sample_doc cmp1 acme "2024-01-03" "Facebook" 1000 50 5 20;
      sample_doc cmp1 acme "2024-01-01" "GoogleAds" 2000 0 0 3;
      sample_doc cmp1 acme "2024-01-02" "Facebook" 500 10 1 22.5;
      sample_doc cmp2 globex "2024-01-02" "GoogleAds" 300 4 0 8 ]
    [ mkIntegration (mkObjectId acme) "GoogleAds" ].

(** Seven daily records of one campaign, each costing 2, with click counts
    1, 2, 0, 1, 1, 1, 1. *)
Definition week_store : Store :=
  mkStore
    [ sample_doc cmp7 acme "2024-02-01" "GoogleAds" 100 1 0 2;
      sample_doc cmp7 acme "2024-02-02" "GoogleAds" 100 2 0 2;
      sample_doc cmp7 acme "2024-02-03" "GoogleAds" 100 0 0 2;
      sample_doc cmp7 acme "2024-02-04" "GoogleAds" 100 1 0 2;
      sample_doc cmp7 acme "2024-02-05" "GoogleAds" 100 1 0 2;
      sample_doc cmp7 acme "2024-02-06" "GoogleAds" 100 1 0 2;
      sample_doc cmp7 acme "2024-02-07" "GoogleAds" 100 1 0 2 ]
    [].

(** One record whose cost per click is [cost]. *)
Definition single_store (cost : JsNumber) : Store :=
  mkStore [ sample_doc cmp9 acme "2024-03-01" "Facebook" 10 1 0 cost ] [].

(** Three records that cost the doubles nearest to 0.3, 0.2 and 0.1, the
    first and the last on one channel. *)
Definition tenths_store : Store :=
  mkStore
    [ sample_doc cmp1 acme "2024-01-01" "Facebook" 1 1 0 0x1.3333333333333p-2;
      sample_doc cmp1 acme "2024-01-02" "GoogleAds" 1 1 0 0x1.999999999999ap-3;
      sample_doc cmp1 acme "2024-01-03" "Facebook" 1 1 0 0x1.999999999999ap-4 ]
    [].

(** Filters: on a date range, on a company and a date range, on a
    campaign, and with one date bound only. *)
Definition all_january : Params.t :=
  Params.mk None None (Some "2024-01-01") (Some "2024-01-02").
Definition acme_january : Params.t :=
  Params.mk (Some acme) None (Some "2024-01-01") (Some "2024-01-02").
Definition acme_from_january : Params.t :=
  Params.mk (Some acme) (Some cmp1) (Some "2024-01-02") None.
Definition no_filter : Params.t := Params.mk None None None None.

Definition outcome_map {A B} (f : A -> B) (o : outcome A) : outcome B :=
  match o with
  | Resolved a => Resolved (f a)
  | Rejected e => Rejected e
  end.

(** ** Reference notions the properties are stated with *)

Definition Zsum (l : list Z) : Z := foldr Z.add 0 l.
Definition Qcsum (l : list Qc) : Qc := foldr Qcplus 0%Qc l.

(** The sum of a list of numbers in double arithmetic, taken from [0]
    through the list from its head on. *)
Definition Number_sum (l : list JsNumber) : JsNumber :=
  fold_left PrimFloat.add l 0%float.

(** The unweighted mean of a list of numbers, in double arithmetic. *)
Definition Number_mean (l : list JsNumber) : JsNumber :=
  (Number_sum l / Number_of_nat (length l))%float.

(** The double sum of the list is finite and stands for the exact sum of
    what its finite members stand for: no rounding has changed it. *)
Definition sums_exactly (l : list JsNumber) : Prop :=
  (forall x, x ∈ l -> Number_finite x = true)
  /\ Number_finite (Number_sum l) = true
  /\ Number_exact (Number_sum l) = Qcsum (map Number_exact l).

(** A parameter is given when it is truthy. *)
Definition given (v : JsString) : Prop := truthy v = true.

Section Selection.
Variable cast : Cast.
Variable Date_new : string -> Z.

(** The record's company is the given one, when one is given. *)
Definition company_ok (company : JsString) (r : Analytics) : Prop :=
  given company ->
  is_Some (companyId r) /\ companyId r = cast (js_to_string company).

(** The record's campaign is the given one, when one is given. *)
Definition campaign_ok (campaign : JsString) (r : Analytics) : Prop :=
  given campaign -> cast (js_to_string campaign) = Some (campaignId r).

(** The record's date lies in [[start, end]], when both bounds are given. *)
Definition date_ok (start end_ : JsString) (r : Analytics) : Prop :=
  given start -> given end_ ->
  Date_new (js_to_string start) <= date r <= Date_new (js_to_string end_).

(** The records a filter selects. *)
Definition selects (p : Params.t) (r : Analytics) : Prop :=
  company_ok (Params.companyId p) r
  /\ campaign_ok (Params.campaignId p) r
  /\ date_ok (Params.start p) (Params.end_ p) r.

Global Instance selects_dec p r : Decision (selects p r).
Proof.
  unfold selects, company_ok, campaign_ok, date_ok, given. apply _.
Defined.

Definition selected (p : Params.t) (docs : list Analytics) : list Analytics :=
  List.filter (fun r => bool_decide (selects p r)) docs.

(** The records an aggregation pipeline matches with the filter as the
    service writes it: an identifier is a string there and equals no stored
    ObjectId, so a filter that names a company or a campaign matches
    nothing; the dates are compared as dates. *)
Definition pipeline_matches (p : Params.t) (r : Analytics) : Prop :=
  ~ given (Params.companyId p)
  /\ ~ given (Params.campaignId p)
  /\ date_ok (Params.start p) (Params.end_ p) r.

Global Instance pipeline_matches_dec p r : Decision (pipeline_matches p r).
Proof.
  unfold pipeline_matches, date_ok, given. apply _.
Defined.

Definition pipeline_matched (p : Params.t) (docs : list Analytics) : list Analytics :=
  List.filter (fun r => bool_decide (pipeline_matches p r)) docs.
End Selection.

(** The filter document the services build from their parameters. *)
Definition build_query (Date_new : string -> Z)
    (company campaign start end_ : JsString) : Query :=
  let query := empty_query in
  let query :=
    if truthy company then set_companyId (js_to_string company) query
    else query in
  let query :=
    if truthy campaign then set_campaignId (js_to_string campaign) query
    else query in
  analyticsService.with_date_range Date_new start end_ query.

(** The filter of [getOverview]: its [params] carry no campaign. *)
Definition overview_filter (p : Params.t) : Params.t :=
  Params.mk (Params.companyId p) None (Params.start p) (Params.end_ p).

(** The filter of [getCampaignAnalytics]: its [params] carry no company. *)
Definition campaign_filter (p : Params.t) : Params.t :=
  Params.mk None (Params.campaignId p) (Params.start p) (Params.end_ p).

(** The same filter with the date bounds left out. *)
Definition without_dates (p : Params.t) : Params.t :=
  Params.mk (Params.companyId p) (Params.campaignId p) None None.

(** The records of one campaign, and those of one company. *)
Definition of_campaign (campaign : ObjectId) (docs : list Analytics) : list Analytics :=
  List.filter (fun r => bool_decide (campaignId r = campaign)) docs.

Definition of_company (company : ObjectId) (docs : list Analytics) : list Analytics :=
  List.filter (fun r => bool_decide (companyId r = Some company)) docs.

(** [recent] holds the [n] most recent of [docs] (all of them when there
    are fewer), newest first: it heads a listing of [docs] by descending
    date. *)
Definition most_recent (n : nat) (docs recent : list Analytics) : Prop :=
  exists older,
    recent ++ older ≡ₚ docs
    /\ StronglySorted date_ge (recent ++ older)
    /\ length recent = Nat.min n (length docs).

(** Cost per click of one record, in double arithmetic, a click count that
    is zero (or no number at all) replaced by [1]. *)
Definition cost_per_click (r : Analytics) : JsNumber :=
  (cost r / (if Number_falsy (clicks r) then 1 else clicks r))%float.

(** [piece] occurs inside [whole]. *)
Definition embeds (piece whole : string) : Prop :=
  exists before after, whole = before +:+ piece +:+ after.

(** The four double sums over a list of documents. *)
Definition Sums_of_docs (docs : list Analytics) : Sums :=
  mkSums (Number_sum (map impressions docs))
         (Number_sum (map clicks docs))
         (Number_sum (map conversions docs))
         (Number_sum (map cost docs)).

(** The records of one channel. *)
Definition of_channel (c : string) (docs : list Analytics) : list Analytics :=
  List.filter (fun r => bool_decide (channel r = c)) docs.

(** The documents a group key sends to the group [k]. *)
Definition with_key `{EqDecision K} (key : Analytics -> K) (k : K)
    (docs : list Analytics) : list Analytics :=
  List.filter (fun r => bool_decide (key r = k)) docs.

(** No rounding changes the double sum of a figure over the documents, nor
    its double sum over the documents of any one channel. *)
Definition exact_on (figure : Analytics -> JsNumber) (docs : list Analytics) : Prop :=
  sums_exactly (map figure docs)
  /\ forall c, sums_exactly (map figure (of_channel c docs)).

(** The figures of the rows are finite, and what they stand for adds up to
    what the total stands for. *)
Definition adds_up_exactly (rows : list JsNumber) (total : JsNumber) : Prop :=
  (forall x, x ∈ rows -> Number_finite x = true)
  /\ Number_finite total = true
  /\ Qcsum (map Number_exact rows) = Number_exact total.

(** The error body [{ success: false, message }]. *)
Definition error_envelope {D} (resp : Response.t D) : Prop :=
  Response.success resp = false
  /\ Response.data resp = None
  /\ is_Some (Response.message resp).

(** What a handler answers to what its service call came to: [500] and the
    error body when the call was rejected, [404] and the error body when the
    call resolved to a value that counts as a miss, and [200] with the value
    as data otherwise.  The handler itself always resolves. *)
Definition handler_contract {A} (miss : A -> bool) (called : outcome A)
    (answer : outcome (Response.t A)) : Prop :=
  exists resp,
    answer = Resolved resp
    /\ match called with
       | Rejected _ => Response.status resp = 500 /\ error_envelope resp
       | Resolved a =>
           if miss a then Response.status resp = 404 /\ error_envelope resp
           else Response.status resp = 200
                /\ Response.success resp = true
                /\ Response.data resp = Some a
       end.

Definition never {A} (a : A) : bool := false.

(** A computation is read-only when it hands back the store it was given. *)
Definition read_only {A} (m : M A) : Prop := forall s, final m s = s.

(** * Further parts of the repository

    The rest of [src/services/auth.service.js], which holds the auth, the
    integration and the analytics service, with the auth controller
    ([src/controllers/auth.controller.js]), the User and Integration
    schemas, and the metrics-collection agent
    ([src/agents/analyticsAgent.js]) that calls the analytics service.

    As before a request value is a string or missing and a stored
    identifier is an ObjectId, which Mongoose casts the strings of a
    [findById], of a filter and of a new document to.  The figures the
    agent passes on are read as exact numbers.  What lies outside the
    repository (bcrypt, jsonwebtoken, the ad platforms, the clock, the
    identifiers of new documents) is a parameter of the model. *)

(** ** Promises over any state, rejected with an error object *)

(** An [Error] with its message and, when one was set, its [code]. *)
Record JsError := mkJsError {
  err_message : string;
  err_code : option Z
}.

Inductive settled (A : Type) : Type :=
| Fulfilled (a : A)
| Thrown (err : JsError).
Arguments Fulfilled {A} a.
Arguments Thrown {A} err.

(** An [async] function over a state [W]. *)
Definition Async (W A : Type) : Type := W -> settled A * W.

Definition resolve {W A} (a : A) : Async W A := fun w => (Fulfilled a, w).
Definition reject {W A} (err : JsError) : Async W A := fun w => (Thrown err, w).
Definition and_then {W A B} (m : Async W A) (k : A -> Async W B) : Async W B :=
  fun w =>
    match m w with
    | (Fulfilled a, w') => k a w'
    | (Thrown err, w') => (Thrown err, w')
    end.

Notation "'awaiting' x <- m ;; k" := (and_then m (fun x => k))
  (at level 100, x name, m at next level, right associativity).

(** [try { ... } catch (error) { ... }]. *)
Definition catching {W A} (m : Async W A) (handler : JsError -> Async W A)
  : Async W A :=
  fun w =>
    match m w with
    | (Fulfilled a, w') => (Fulfilled a, w')
    | (Thrown err, w') => handler err w'
    end.

Definition settles {W A} (m : Async W A) (w : W) : settled A := fst (m w).
Definition leaves {W A} (m : Async W A) (w : W) : W := snd (m w).

(** [new Error(message)]. *)
Definition Error_new (message : string) : JsError := mkJsError message None.

(** The [CastError] a Mongoose query is rejected with. *)
Definition CastError_new : JsError := Error_new CastError.

(** ** Users *)

(** The User schema ([src/models/user.model.js]). *)
Module Profile.
Record t := mk {
  firstName : JsString;
  lastName : JsString;
  avatarUrl : JsString
}.
End Profile.

Module User.
Record t := mk {
  _id : ObjectId;
  email : string;
  passwordHash : string;
  role : string;
  profile : Profile.t;
  createdAt : Z;
  updatedAt : option Z
}.
End User.

(** The payload of a token. *)
Module JwtPayload.
Record t := mk {
  userId : ObjectId;
  role : string
}.
End JwtPayload.

(** What the auth service takes from outside the repository: bcrypt,
    jsonwebtoken, the [JWT_SECRET] of the process environment, the setters
    the User schema puts on its strings ([lowercase] and [trim] on [email],
    [trim] on the names), and Mongoose's cast of a string to an ObjectId.
    Mongoose applies a path's setters to the value of a new document and to
    the value a filter gives for the path. *)
Module Platform.
Record t := mk {
  (* [bcrypt.hash(password, saltRounds)], with the salt it draws *)
  bcrypt_hash : string -> Z -> string -> string;
  (* [bcrypt.compare(password, hash)] *)
  bcrypt_compare : string -> string -> bool;
  (* [jwt.sign(payload, secret, { expiresIn })], at an instant *)
  jwt_sign : JwtPayload.t -> string -> string -> Z -> string;
  JWT_SECRET : JsString;
  email_setter : string -> string;
  String_trim : string -> string;
  ObjectId_cast : Cast
}.
End Platform.

(** What one call reads from its environment: the identifier a new
    document gets, the salt bcrypt draws, and the clock, at the construction
    of a document, in its pre-save hook and at the signing of a token. *)
Module Env.
Record t := mk {
  ObjectId : ObjectId;
  salt : string;
  Date_now : Z;
  Date_new : Z;
  issued_at : Z
}.
End Env.

(** The users collection. *)
Definition Users := list User.t.

(** The user as [registerUser] and [loginUser] hand it out. *)
Module PublicUser.
Record t := mk {
  _id : ObjectId;
  email : string;
  role : string;
  profile : Profile.t
}.
End PublicUser.

(** The result of [loginUser]; [null] is [None]. *)
Module Login.
Record t := mk {
  token : JsString;
  user : option PublicUser.t
}.
End Login.

(** The user without its [passwordHash], as [getUserProfile] returns it. *)
Module UserData.
Record t := mk {
  _id : ObjectId;
  email : string;
  role : string;
  profile : Profile.t;
  createdAt : Z;
  updatedAt : option Z
}.
End UserData.

(** The model [User] of Mongoose over the collection. *)
Module UserModel.
Section WithPlatform.
Variable lib : Platform.t.

(** [User.findOne({ email })] *)
Definition findOne_email (email : string) : Async Users (option User.t) :=
  fun us =>
    (Fulfilled
       (List.find (fun u => bool_decide (User.email u = Platform.email_setter lib email)) us),
     us).

(** [User.findById(id)]: the identifier is cast, and the query is rejected
    when it is no ObjectId. *)
Definition findById (id : string) : Async Users (option User.t) :=
  fun us =>
    match Platform.ObjectId_cast lib id with
    | None => (Thrown CastError_new, us)
    | Some id =>
        (Fulfilled (List.find (fun u => bool_decide (User._id u = id)) us), us)
    end.

(** [new User({ email, passwordHash, role, profile: { firstName, lastName } })]:
    the setters are applied, [createdAt] takes its default. *)
Definition create (env : Env.t) (email passwordHash role : string)
    (firstName lastName : JsString) : User.t :=
  User.mk (Env.ObjectId env)
          (Platform.email_setter lib email)
          passwordHash
          role
          (Profile.mk (option_map (Platform.String_trim lib) firstName)
                      (option_map (Platform.String_trim lib) lastName)
                      None)
          (Env.Date_now env)
          None.

Definition ValidationError : JsError := Error_new "User validation failed".
Definition DuplicateKeyError : JsError :=
  mkJsError "E11000 duplicate key error" (Some 11000).

(** [doc.save()] of a new document: the required paths are validated (an
    empty string does not satisfy [required]), the pre-save hook stamps
    [updatedAt], and the insertion fails with code 11000 when the [_id] or
    the unique [email] is taken. *)
Definition save (env : Env.t) (doc : User.t) : Async Users User.t :=
  fun us =>
    if String.eqb (User.email doc) "" || String.eqb (User.passwordHash doc) "" then
      (Thrown ValidationError, us)
    else
      let doc :=
        User.mk (User._id doc) (User.email doc) (User.passwordHash doc)
                (User.role doc) (User.profile doc) (User.createdAt doc)
                (Some (Env.Date_new env)) in
      if existsb (fun u => bool_decide (User._id u = User._id doc)
                           || bool_decide (User.email u = User.email doc)) us
      then (Thrown DuplicateKeyError, us)
      else (Fulfilled doc, us ++ [doc]).

End WithPlatform.
End UserModel.

(** [src/services/auth.service.js], on a string [email] and [password]. *)
Module authService.
Section WithPlatform.
Variable lib : Platform.t.

Definition registerUser (env : Env.t) (email password : string)
    (firstName lastName : JsString) : Async Users PublicUser.t :=
  (* 1. Check if user with this email already exists *)
  awaiting existingUser <- UserModel.findOne_email lib email ;;
  match existingUser with
  | Some _ =>
      reject (mkJsError "User with this email already exists." (Some 11000))
  | None =>
      (* 2. Hash the password *)
      let saltRounds := 10 in
      let passwordHash :=
        Platform.bcrypt_hash lib password saltRounds (Env.salt env) in
      (* 3. Create user *)
      let newUser :=
        UserModel.create lib env email passwordHash "marketer" firstName lastName in
      awaiting savedUser <- UserModel.save env newUser ;;
      (* 4. Return user data (excluding passwordHash) *)
      resolve (PublicUser.mk (User._id savedUser) (User.email savedUser)
                             (User.role savedUser) (User.profile savedUser))
  end.

Definition loginUser (env : Env.t) (email password : string)
  : Async Users Login.t :=
  (* 1. Find user by email *)
  awaiting user <- UserModel.findOne_email lib email ;;
  match user with
  | None => resolve (Login.mk None None)
  | Some user =>
      (* 2. Compare password with stored hash *)
      let match_ := Platform.bcrypt_compare lib password (User.passwordHash user) in
      if negb match_ then resolve (Login.mk None None)
      else
        (* 3. Generate JWT token *)
        let secret :=
          if truthy (Platform.JWT_SECRET lib)
          then js_to_string (Platform.JWT_SECRET lib)
          else "mySecretKey" in
        let expiresIn := "1d" in
        let payload := JwtPayload.mk (User._id user) (User.role user) in
        let token :=
          Platform.jwt_sign lib payload secret expiresIn (Env.issued_at env) in
        (* 4. Return token and user info *)
        resolve (Login.mk (Some token)
                   (Some (PublicUser.mk (User._id user) (User.email user)
                                        (User.role user) (User.profile user))))
  end.

Definition getUserProfile (userId : string) : Async Users (option UserData.t) :=
  awaiting user <- UserModel.findById lib userId ;;
  match user with
  | None => resolve None
  | Some user =>
      resolve (Some (UserData.mk (User._id user) (User.email user)
                                 (User.role user) (User.profile user)
                                 (User.createdAt user) (User.updatedAt user)))
  end.

End WithPlatform.
End authService.

(** What [require("../services/auth.service")] exports. *)
Record AuthService := mkAuthService {
  svc_registerUser :
    Env.t -> string -> string -> JsString -> JsString -> Async Users PublicUser.t;
  svc_loginUser : Env.t -> string -> string -> Async Users Login.t;
  svc_getUserProfile : string -> Async Users (option UserData.t)
}.

(** The parts of a request the auth handlers read: the body, and the
    [userId] of [req.user] when a middleware has set one. *)
Module AuthRequest.
Record t := mk {
  body_email : JsString;
  body_password : JsString;
  body_firstName : JsString;
  body_lastName : JsString;
  user_userId : JsString
}.
End AuthRequest.

(** [src/controllers/auth.controller.js] *)
Module authController.
Section WithService.
Variable authService : AuthService.

Definition register (env : Env.t) (req : AuthRequest.t)
  : Async Users (Response.t PublicUser.t) :=
  catching
    (let email := AuthRequest.body_email req in
     let password := AuthRequest.body_password req in
     let firstName := AuthRequest.body_firstName req in
     let lastName := AuthRequest.body_lastName req in
     if negb (truthy email) || negb (truthy password) then
       resolve (Response.mk 400 false None
                  (Some "Missing required fields: email or password."))
     else
       awaiting newUser <-
         svc_registerUser authService env (js_to_string email)
           (js_to_string password) firstName lastName ;;
       resolve (Response.mk 201 true (Some newUser)
                  (Some "User registered successfully.")))
    (fun error =>
       if bool_decide (err_code error = Some 11000) then
         resolve (Response.mk 409 false None
                    (Some "User with this email already exists."))
       else
         resolve (Response.mk 500 false None (Some "Failed to register user."))).

(** On success the data is [{ token, user }], both present. *)
Definition login (env : Env.t) (req : AuthRequest.t)
  : Async Users (Response.t Login.t) :=
  catching
    (let email := AuthRequest.body_email req in
     let password := AuthRequest.body_password req in
     if negb (truthy email) || negb (truthy password) then
       resolve (Response.mk 400 false None
                  (Some "Missing required fields: email or password."))
     else
       awaiting found <-
         svc_loginUser authService env (js_to_string email) (js_to_string password) ;;
       let token := Login.token found in
       let user := Login.user found in
       if negb (truthy token) then
         resolve (Response.mk 401 false None (Some "Invalid credentials."))
       else
         resolve (Response.mk 200 true (Some (Login.mk token user))
                    (Some "Login successful.")))
    (fun error =>
       resolve (Response.mk 500 false None (Some "Failed to login."))).

Definition getProfile (req : AuthRequest.t)
  : Async Users (Response.t UserData.t) :=
  catching
    (let userId := AuthRequest.user_userId req in
     if negb (truthy userId) then
       resolve (Response.mk 401 false None
                  (Some "Unauthorized. No valid user token found."))
     else
       awaiting userProfile <-
         svc_getUserProfile authService (js_to_string userId) ;;
       match userProfile with
       | None => resolve (Response.mk 404 false None (Some "User not found."))
       | Some userProfile =>
           resolve (Response.mk 200 true (Some userProfile) None)
       end)
    (fun error =>
       resolve (Response.mk 500 false None
                  (Some "Failed to retrieve user profile."))).

End WithService.
End authController.

(** The auth service the controller is linked against. *)
Definition the_authService (lib : Platform.t) : AuthService :=
  mkAuthService (authService.registerUser lib)
                (authService.loginUser lib)
                (authService.getUserProfile lib).

(** A platform for the examples: a transparent stand-in for bcrypt and
    jsonwebtoken, and setters that lower-case ASCII letters and strip
    blanks at both ends. *)
Fixpoint drop_blanks (s : string) : string :=
  match s with
  | String " "%char s' => drop_blanks s'
  | _ => s
  end.

Definition String_rev (s : string) : string :=
  string_of_list_ascii (rev (list_ascii_of_string s)).

Definition trim_blanks (s : string) : string :=
  String_rev (drop_blanks (String_rev (drop_blanks s))).

Definition sample_platform : Platform.t :=
  Platform.mk
    (fun password rounds salt => "$" +:+ salt +:+ "$" +:+ password)
    (fun password hash =>
       String.eqb (String_drop (String.length hash - String.length password) hash)
                  password)
    (fun payload secret expiresIn at_ =>
       "jwt." +:+ ObjectId_hex (JwtPayload.userId payload)
         +:+ "." +:+ JwtPayload.role payload)
    None
    (fun s => trim_blanks (String_map ascii_lower s))
    trim_blanks
    ObjectId_of_hex.

(** Identifiers of users, as strings. *)
Definition ann_id : string := "65a1f0000000000000000b01".
Definition bob_id : string := "65a1f0000000000000000b02".

Definition sample_env : Env.t := Env.mk (mkObjectId bob_id) "salt" 1000 1001 2000.

Definition sample_ann : User.t :=
  User.mk (mkObjectId ann_id) "ann@example.com" "$salt$secret" "admin"
          (Profile.mk (Some "Ann") None None) 10 (Some 11).

Definition sample_users : Users := [ sample_ann ].

Definition signup_bob : AuthRequest.t :=
  AuthRequest.mk (Some " Bob@Example.com") (Some "hunter2")
                 (Some "Bob ") None None.
Definition signup_ann : AuthRequest.t :=
  AuthRequest.mk (Some "ANN@example.com") (Some "other") None None None.
Definition signup_blank : AuthRequest.t :=
  AuthRequest.mk (Some "bob@example.com") (Some "") None None None.

(** ** Notions for the auth properties *)

(** The user is stored under the address, as the email setter writes it. *)
Definition has_email (lib : Platform.t) (email : string) (u : User.t) : Prop :=
  User.email u = Platform.email_setter lib email.

Global Instance has_email_dec lib email u : Decision (has_email lib email u).
Proof. unfold has_email. apply _. Defined.

(** The document a successful registration stores. *)
Definition registered_user (lib : Platform.t) (env : Env.t)
    (email password : string) (firstName lastName : JsString) : User.t :=
  User.mk (Env.ObjectId env) (Platform.email_setter lib email)
          (Platform.bcrypt_hash lib password 10 (Env.salt env)) "marketer"
          (Profile.mk (option_map (Platform.String_trim lib) firstName)
                      (option_map (Platform.String_trim lib) lastName) None)
          (Env.Date_now env) (Some (Env.Date_new env)).

Definition PublicUser_of (u : User.t) : PublicUser.t :=
  PublicUser.mk (User._id u) (User.email u) (User.role u) (User.profile u).

Definition UserData_of (u : User.t) : UserData.t :=
  UserData.mk (User._id u) (User.email u) (User.role u) (User.profile u)
              (User.createdAt u) (User.updatedAt u).

(** The secret tokens are signed with. *)
Definition jwt_secret (lib : Platform.t) : string :=
  if truthy (Platform.JWT_SECRET lib) then js_to_string (Platform.JWT_SECRET lib)
  else "mySecretKey".

Definition login_ann : AuthRequest.t :=
  AuthRequest.mk (Some "Ann@example.com ") (Some "secret") None None (Some ann_id).

(** A request whose token names no ObjectId. *)
Definition login_stale : AuthRequest.t :=
  AuthRequest.mk None None None None (Some "id1").

(** ** The metrics-collection agent *)

(** What the agent reads of a campaign. *)
Module Campaign.
Record t := mk {
  _id : string;
  name : string;
  channels : list string;
  startDate : option Z;
  endDate : option Z
}.
End Campaign.

(** The request the agent sends to an ad platform. *)
Module MetricsQuery.
Record t := mk {
  campaignName : string;
  campaignId : string;
  dateRange_start : option Z;
  dateRange_end : option Z
}.
End MetricsQuery.

(** What a platform answers: any of the figures may be missing. *)
Module RawMetrics.
Record t := mk {
  impressions : option Z;
  clicks : option Z;
  conversions : option Z;
  cost : option Qc
}.
End RawMetrics.

(** The standard metrics object of the agent. *)
Module Metrics.
Record t := mk {
  impressions : Z;
  clicks : Z;
  conversions : Z;
  cost : Qc
}.
End Metrics.

(** [{ channel, ...metrics }] *)
Module ChannelData.
Record t := mk {
  channel : string;
  impressions : Z;
  clicks : Z;
  conversions : Z;
  cost : Qc
}.
End ChannelData.

Module AggregatedMetrics.
Record t := mk {
  campaignId : string;
  date : Z;
  impressions : Z;
  clicks : Z;
  conversions : Z;
  cost : Qc;
  channelData : list ChannelData.t
}.
End AggregatedMetrics.

(** The names [src/services/analytics.service.js] lists in its
    [module.exports]. *)
Definition analyticsService_exports : list string :=
  [ "getOverview"; "getCampaignAnalytics"; "getChannelAnalytics";
    "getRecommendations" ].

(** [module.name(...)]: calling a name the module does not export throws a
    [TypeError]; [body] is what the call runs when the name is exported. *)
Definition call_export {W A} (exports : list string) (module_ name : string)
    (body : Async W A) : Async W A :=
  if bool_decide (name ∈ exports) then body
  else reject (Error_new (module_ +:+ "." +:+ name +:+ " is not a function")).

(** [src/agents/analyticsAgent.js].  The logger calls are left out. *)
Module analyticsAgent.
Section WithPlatforms.
Context {W : Type}.

(** [GoogleAdsAPI.getCampaignMetrics] and [MetaAdsAPI.getCampaignMetrics],
    of integrations outside the repository. *)
Variable GoogleAdsAPI_getCampaignMetrics : MetricsQuery.t -> Async W RawMetrics.t.
Variable MetaAdsAPI_getCampaignMetrics : MetricsQuery.t -> Async W RawMetrics.t.

(** What [analyticsService.saveCampaignMetrics] would run, were it exported. *)
Variable saveCampaignMetrics : AggregatedMetrics.t -> Async W unit.

(** [new Date()] at the start of a collection. *)
Variable now : Z.

Definition standard_metrics (result : RawMetrics.t) : Metrics.t :=
  Metrics.mk (Z_or (default 0 (RawMetrics.impressions result)) 0)
             (Z_or (default 0 (RawMetrics.clicks result)) 0)
             (Z_or (default 0 (RawMetrics.conversions result)) 0)
             (Qc_or (default 0%Qc (RawMetrics.cost result)) 0%Qc).

Definition metrics_query (campaign : Campaign.t) : MetricsQuery.t :=
  MetricsQuery.mk (Campaign.name campaign) (Campaign._id campaign)
                  (Campaign.startDate campaign) (Campaign.endDate campaign).

Definition fetchGoogleAdsMetrics (campaign : Campaign.t) : Async W Metrics.t :=
  awaiting result <- GoogleAdsAPI_getCampaignMetrics (metrics_query campaign) ;;
  resolve (standard_metrics result).

Definition fetchMetaAdsMetrics (campaign : Campaign.t) : Async W Metrics.t :=
  awaiting result <- MetaAdsAPI_getCampaignMetrics (metrics_query campaign) ;;
  resolve (standard_metrics result).

(** [aggregatedMetrics.x += data.x; ...; channelData.push({ channel, ...data })] *)
Definition add_channel (channel : string) (data : Metrics.t)
    (aggregatedMetrics : AggregatedMetrics.t) : AggregatedMetrics.t :=
  AggregatedMetrics.mk
    (AggregatedMetrics.campaignId aggregatedMetrics)
    (AggregatedMetrics.date aggregatedMetrics)
    (AggregatedMetrics.impressions aggregatedMetrics + Metrics.impressions data)
    (AggregatedMetrics.clicks aggregatedMetrics + Metrics.clicks data)
    (AggregatedMetrics.conversions aggregatedMetrics + Metrics.conversions data)
    (AggregatedMetrics.cost aggregatedMetrics + Metrics.cost data)%Qc
    (AggregatedMetrics.channelData aggregatedMetrics
       ++ [ ChannelData.mk channel (Metrics.impressions data) (Metrics.clicks data)
                           (Metrics.conversions data) (Metrics.cost data) ]).

(** The body of [collectCampaignMetrics] up to the call that saves. *)
Definition aggregate_campaign (campaign : Campaign.t)
  : Async W AggregatedMetrics.t :=
  let aggregatedMetrics :=
    AggregatedMetrics.mk (Campaign._id campaign) now 0 0 0 0%Qc [] in
  awaiting aggregatedMetrics <-
    (if bool_decide ("GoogleAds" ∈ Campaign.channels campaign) then
       awaiting googleData <- fetchGoogleAdsMetrics campaign ;;
       resolve (add_channel "GoogleAds" googleData aggregatedMetrics)
     else resolve aggregatedMetrics) ;;
  awaiting aggregatedMetrics <-
    (if bool_decide ("Facebook" ∈ Campaign.channels campaign) then
       awaiting metaData <- fetchMetaAdsMetrics campaign ;;
       resolve (add_channel "Facebook" metaData aggregatedMetrics)
     else resolve aggregatedMetrics) ;;
  resolve aggregatedMetrics.

Definition collectCampaignMetrics (campaign : Campaign.t) : Async W unit :=
  catching
    (awaiting aggregatedMetrics <- aggregate_campaign campaign ;;
     awaiting saved <-
       call_export analyticsService_exports "analyticsService"
         "saveCampaignMetrics" (saveCampaignMetrics aggregatedMetrics) ;;
     resolve tt)
    (fun err => reject err).

Fixpoint collectAllCampaignsMetrics (campaigns : list Campaign.t) : Async W unit :=
  match campaigns with
  | [] => resolve tt
  | campaign :: rest =>
      awaiting done_ <- collectCampaignMetrics campaign ;;
      collectAllCampaignsMetrics rest
  end.

End WithPlatforms.
End analyticsAgent.

(** The figures of the channel rows, summed. *)
Definition ChannelData_total (rows : list ChannelData.t) : Metrics.t :=
  Metrics.mk (Zsum (map ChannelData.impressions rows))
             (Zsum (map ChannelData.clicks rows))
             (Zsum (map ChannelData.conversions rows))
             (Qcsum (map ChannelData.cost rows)).

(** ** Integrations, in full *)

(** A value held under a key of [meta]. *)
Inductive MetaValue :=
| MetaUndefined
| MetaString (s : string)
| MetaDate (t : Z)
| MetaOther (json : string).

(** The Integration schema ([src/models/integration.model.js]).  A path
    that holds no value is [None]. *)
Module IntegrationDoc.
Record t := mk {
  _id : ObjectId;
  companyId : option ObjectId;
  platform : JsString;
  accessToken : JsString;
  refreshToken : JsString;
  accountId : JsString;
  status : string;
  meta : option (gmap string MetaValue);
  createdAt : Z;
  updatedAt : option Z
}.
End IntegrationDoc.

(** An object naming some of the paths [companyId], [platform],
    [accessToken], [refreshToken], [accountId], [status] and [meta]: the
    [integrationData] of [createIntegration], the [updates] of
    [updateIntegration].  A key the object does not have is [None]; the
    identifier of a company is the string of the request. *)
Module IntegrationData.
Record t := mk {
  companyId : JsString;
  platform : JsString;
  accessToken : JsString;
  refreshToken : JsString;
  accountId : JsString;
  status : JsString;
  meta : option (gmap string MetaValue)
}.
End IntegrationData.

(** The integrations collection. *)
Definition Integrations := list IntegrationDoc.t.

(** [a] when the object has the key, [b] otherwise: a later key of an object
    literal or of a [$set] wins over an earlier value. *)
Definition overriding {A} (a b : option A) : option A :=
  match a with
  | Some _ => a
  | None => b
  end.

(** The model [Integration] of Mongoose over the collection. *)
Module IntegrationModel.
Section WithCast.

(** Mongoose's cast of a string to an ObjectId. *)
Variable cast : Cast.

Definition status_enum : list string := [ "active"; "error"; "revoked" ].

(** The value a path of type ObjectId takes from a string: none when the
    string does not cast. *)
Definition cast_path (v : JsString) : option ObjectId :=
  match v with
  | Some s => cast s
  | None => None
  end.

(** [new Integration({ companyId, ...integrationData })]: the keys of the
    data come after [companyId]; the value of [companyId] is cast to the
    type of its path, [status] and [createdAt] take their defaults. *)
Definition create (env : Env.t) (companyId : JsString)
    (integrationData : IntegrationData.t) : IntegrationDoc.t :=
  IntegrationDoc.mk
    (Env.ObjectId env)
    (cast_path (overriding (IntegrationData.companyId integrationData) companyId))
    (IntegrationData.platform integrationData)
    (IntegrationData.accessToken integrationData)
    (IntegrationData.refreshToken integrationData)
    (IntegrationData.accountId integrationData)
    (default "active" (IntegrationData.status integrationData))
    (IntegrationData.meta integrationData)
    (Env.Date_now env)
    None.

Definition ValidationError : JsError := Error_new "Integration validation failed".
Definition DuplicateKeyError : JsError :=
  mkJsError "E11000 duplicate key error" (Some 11000).

(** The schema's validation: [companyId] and [platform] are required,
    [status] is one of the enumerated values.  A [companyId] that did not
    cast has left its path empty. *)
Definition valid (doc : IntegrationDoc.t) : bool :=
  bool_decide (is_Some (IntegrationDoc.companyId doc))
  && truthy (IntegrationDoc.platform doc)
  && bool_decide (IntegrationDoc.status doc ∈ status_enum).

(** The pre-save hook. *)
Definition touch (env : Env.t) (doc : IntegrationDoc.t) : IntegrationDoc.t :=
  IntegrationDoc.mk
    (IntegrationDoc._id doc) (IntegrationDoc.companyId doc)
    (IntegrationDoc.platform doc) (IntegrationDoc.accessToken doc)
    (IntegrationDoc.refreshToken doc) (IntegrationDoc.accountId doc)
    (IntegrationDoc.status doc) (IntegrationDoc.meta doc)
    (IntegrationDoc.createdAt doc) (Some (Env.Date_new env)).

Definition has_id (id : ObjectId) (doc : IntegrationDoc.t) : bool :=
  bool_decide (IntegrationDoc._id doc = id).

(** The collection with the first document under [id] replaced. *)
Fixpoint replace_first (id : ObjectId) (doc : IntegrationDoc.t)
    (docs : Integrations) : Integrations :=
  match docs with
  | [] => []
  | d :: rest =>
      if has_id id d then doc :: rest else d :: replace_first id doc rest
  end.

(** The collection without the first document under [id]. *)
Fixpoint remove_first (id : ObjectId) (docs : Integrations) : Integrations :=
  match docs with
  | [] => []
  | d :: rest => if has_id id d then rest else d :: remove_first id rest
  end.

(** [doc.save()] of a new document. *)
Definition save_new (env : Env.t) (doc : IntegrationDoc.t)
  : Async Integrations IntegrationDoc.t :=
  fun docs =>
    if negb (valid doc) then (Thrown ValidationError, docs)
    else
      let doc := touch env doc in
      if existsb (has_id (IntegrationDoc._id doc)) docs
      then (Thrown DuplicateKeyError, docs)
      else (Fulfilled doc, docs ++ [doc]).

(** [doc.save()] of a document that was found in the collection. *)
Definition save_found (env : Env.t) (doc : IntegrationDoc.t)
  : Async Integrations IntegrationDoc.t :=
  fun docs =>
    if negb (valid doc) then (Thrown ValidationError, docs)
    else
      let doc := touch env doc in
      (Fulfilled doc, replace_first (IntegrationDoc._id doc) doc docs).

(** [Integration.findById(id)]: the identifier is cast, and the query is
    rejected when it is no ObjectId. *)
Definition findById (id : string) : Async Integrations (option IntegrationDoc.t) :=
  fun docs =>
    match cast id with
    | None => (Thrown CastError_new, docs)
    | Some id => (Fulfilled (List.find (has_id id) docs), docs)
    end.

(** [{ $set: updates }] on one document, the updates cast to the types of
    their paths. *)
Definition set_fields (updates : IntegrationData.t) (doc : IntegrationDoc.t)
  : IntegrationDoc.t :=
  IntegrationDoc.mk
    (IntegrationDoc._id doc)
    (overriding (cast_path (IntegrationData.companyId updates))
                (IntegrationDoc.companyId doc))
    (overriding (IntegrationData.platform updates) (IntegrationDoc.platform doc))
    (overriding (IntegrationData.accessToken updates) (IntegrationDoc.accessToken doc))
    (overriding (IntegrationData.refreshToken updates) (IntegrationDoc.refreshToken doc))
    (overriding (IntegrationData.accountId updates) (IntegrationDoc.accountId doc))
    (default (IntegrationDoc.status doc) (IntegrationData.status updates))
    (overriding (IntegrationData.meta updates) (IntegrationDoc.meta doc))
    (IntegrationDoc.createdAt doc)
    (IntegrationDoc.updatedAt doc).

(** The updates cast: a [companyId] they name is an ObjectId. *)
Definition updates_cast (updates : IntegrationData.t) : bool :=
  match IntegrationData.companyId updates with
  | Some s => bool_decide (is_Some (cast s))
  | None => true
  end.

(** [Integration.findByIdAndUpdate(id, { $set: updates }, { new: true })]:
    the identifier and the updates are cast before the store is asked;
    validators do not run. *)
Definition findByIdAndUpdate (id : string) (updates : IntegrationData.t)
  : Async Integrations (option IntegrationDoc.t) :=
  fun docs =>
    match cast id with
    | None => (Thrown CastError_new, docs)
    | Some id =>
        if negb (updates_cast updates) then (Thrown CastError_new, docs)
        else
          match List.find (has_id id) docs with
          | None => (Fulfilled None, docs)
          | Some doc =>
              let doc := set_fields updates doc in
              (Fulfilled (Some doc), replace_first id doc docs)
          end
    end.

(** [Integration.find({ companyId })] *)
Definition find_company (companyId : string)
  : Async Integrations (list IntegrationDoc.t) :=
  fun docs =>
    match cast companyId with
    | None => (Thrown CastError_new, docs)
    | Some company =>
        (Fulfilled
           (List.filter
              (fun d => bool_decide (IntegrationDoc.companyId d = Some company)) docs),
         docs)
    end.

(** [Integration.findByIdAndDelete(id)] *)
Definition findByIdAndDelete (id : string)
  : Async Integrations (option IntegrationDoc.t) :=
  fun docs =>
    match cast id with
    | None => (Thrown CastError_new, docs)
    | Some id => (Fulfilled (List.find (has_id id) docs), remove_first id docs)
    end.

End WithCast.
End IntegrationModel.

(** [src/services/integration.service.js], over the full documents. *)
Module integrationDocs.
Section WithCast.
Variable cast : Cast.

Definition createIntegration (env : Env.t) (companyId : JsString)
    (integrationData : IntegrationData.t) : Async Integrations IntegrationDoc.t :=
  if negb (truthy companyId) then
    reject (Error_new "companyId is required to create an integration.")
  else if negb (truthy (IntegrationData.platform integrationData)) then
    reject (Error_new "Platform is required to create an integration.")
  else
    let newIntegration := IntegrationModel.create cast env companyId integrationData in
    awaiting savedIntegration <- IntegrationModel.save_new env newIntegration ;;
    resolve savedIntegration.

Definition getIntegrations (companyId : JsString)
  : Async Integrations (list IntegrationDoc.t) :=
  if negb (truthy companyId) then
    reject (Error_new "companyId is required to retrieve integrations.")
  else
    awaiting integrations <-
      IntegrationModel.find_company cast (js_to_string companyId) ;;
    resolve integrations.

Definition getIntegrationById (integrationId : JsString)
  : Async Integrations (option IntegrationDoc.t) :=
  if negb (truthy integrationId) then
    reject (Error_new "integrationId is required.")
  else
    awaiting integration <-
      IntegrationModel.findById cast (js_to_string integrationId) ;;
    resolve integration.

Definition updateIntegration (integrationId : JsString)
    (updates : IntegrationData.t) : Async Integrations (option IntegrationDoc.t) :=
  if negb (truthy integrationId) then
    reject (Error_new "integrationId is required to update an integration.")
  else
    awaiting updatedIntegration <-
      IntegrationModel.findByIdAndUpdate cast (js_to_string integrationId) updates ;;
    resolve updatedIntegration.

Definition deleteIntegration (integrationId : JsString) : Async Integrations bool :=
  if negb (truthy integrationId) then
    reject (Error_new "integrationId is required to delete an integration.")
  else
    awaiting result <-
      IntegrationModel.findByIdAndDelete cast (js_to_string integrationId) ;;
    resolve (bool_decide (is_Some result)).

(** [{ ...(integration.meta || {}), lastOAuthUpdate: new Date(),
       codeUsed: code, stateUsed: state }] *)
Definition oauth_meta (env : Env.t) (meta : option (gmap string MetaValue))
    (code state : JsString) : gmap string MetaValue :=
  <["stateUsed" := match state with
                   | Some s => MetaString s
                   | None => MetaUndefined
                   end]>
    (<["codeUsed" := MetaString (js_to_string code)]>
       (<["lastOAuthUpdate" := MetaDate (Env.Date_now env)]>
          (default ∅ meta))).

Definition handleOAuthCallback (env : Env.t) (integrationId code state : JsString)
  : Async Integrations (option IntegrationDoc.t) :=
  if negb (truthy integrationId) || negb (truthy code) then
    reject (Error_new "integrationId and code are required for OAuth callback.")
  else
    (* 1. Fetch the existing integration doc *)
    awaiting integration <-
      IntegrationModel.findById cast (js_to_string integrationId) ;;
    match integration with
    | None => resolve None
    | Some integration =>
        (* For demonstration, we just set some mock tokens *)
        let integration :=
          IntegrationDoc.mk
            (IntegrationDoc._id integration)
            (IntegrationDoc.companyId integration)
            (IntegrationDoc.platform integration)
            (Some "mock_access_token")
            (Some "mock_refresh_token")
            (IntegrationDoc.accountId integration)
            "active"
            (Some (oauth_meta env (IntegrationDoc.meta integration) code state))
            (IntegrationDoc.createdAt integration)
            (IntegrationDoc.updatedAt integration) in
        awaiting saved <- IntegrationModel.save_found env integration ;;
        resolve (Some saved)
    end.

End WithCast.
End integrationDocs.

(** The identifiers in the collection. *)
Definition Integration_ids (docs : Integrations) : list ObjectId :=
  map IntegrationDoc._id docs.

(** The documents under other identifiers than [id]. *)
Definition Integration_others (id : ObjectId) (docs : Integrations) : Integrations :=
  List.filter (fun d => negb (IntegrationModel.has_id id d)) docs.

(** The documents of one company. *)
Definition Integration_of_company (company : ObjectId) (docs : Integrations)
  : Integrations :=
  List.filter (fun d => bool_decide (IntegrationDoc.companyId d = Some company)) docs.

(** Integrations for the examples. *)
Definition int1 : string := "65a1f0000000000000000d01".
Definition int9 : string := "65a1f0000000000000000d09".

Definition sample_integration : IntegrationDoc.t :=
  IntegrationDoc.mk (mkObjectId int1) (Some (mkObjectId acme)) (Some "GoogleAds")
                    None None (Some "acct-7") "revoked"
                    (Some {[ "region" := MetaString "eu" ]}) 10 (Some 11).

Definition other_integration : IntegrationDoc.t :=
  IntegrationDoc.mk (mkObjectId int9) (Some (mkObjectId globex)) (Some "Facebook")
                    (Some "tok") None None "active" None 20 (Some 21).

Definition sample_integrations : Integrations :=
  [ sample_integration; other_integration ].

Definition facebook_for_globex : IntegrationData.t :=
  IntegrationData.mk (Some globex) (Some "Facebook") (Some "tok") None None None None.

Definition pause_updates : IntegrationData.t :=
  IntegrationData.mk None None None None None (Some "error") None.

Definition facebook_only : IntegrationData.t :=
  IntegrationData.mk None (Some "Facebook") None None None None None.



(** ** Properties of JavaScript numbers *)

Lemma Prim2SF_zero : Prim2SF 0%float = S754_zero false.
Proof. reflexivity. Qed.

Lemma Prim2SF_one : Prim2SF 1%float = S754_finite false 4503599627370496 (-52).
Proof. reflexivity. Qed.

Lemma SFeqb_finite_refl s m e :
  SFeqb (S754_finite s m e) (S754_finite s m e) = true.
Proof.
  unfold SFeqb, SFcompare.
  destruct s; rewrite Z.compare_refl, Pos.compare_cont_refl; reflexivity.
Qed.

(** The falsy numbers are the two zeros and [NaN]. *)
Lemma Number_falsy_spec x :
  Number_falsy x
  = match Prim2SF x with
    | S754_zero _ | S754_nan => true
    | S754_infinity _ | S754_finite _ _ _ => false
    end.
Proof.
  unfold Number_falsy, is_nan. rewrite !FloatAxioms.eqb_spec, Prim2SF_zero.
  destruct (Prim2SF x) as [z|i| |s m e].
  - by destruct z.
  - by destruct i.
  - reflexivity.
  - rewrite SFeqb_finite_refl. by destruct s.
Qed.

(** A number from [1] on is truthy. *)
Lemma Number_falsy_from_one x : (1 <=? x)%float = true -> Number_falsy x = false.
Proof.
  rewrite FloatAxioms.leb_spec, Prim2SF_one, Number_falsy_spec.
  destruct (Prim2SF x) as [z|i| |s m e]; try done.
Qed.

Lemma Number_falsy_zero x : (x =? 0)%float = true -> Number_falsy x = true.
Proof. unfold Number_falsy. by intros ->. Qed.

(** [x || 0] stands for what [x] stands for, and is finite when [x] is. *)
Lemma Number_or_zero_exact x :
  Number_exact (Number_or x 0%float) = Number_exact x.
Proof.
  unfold Number_or. rewrite Number_falsy_spec.
  destruct (Prim2SF x) as [z|i| |s m e] eqn:Hx; try reflexivity;
    unfold Number_exact; by rewrite Hx.
Qed.

Lemma Number_or_zero_finite x :
  Number_finite x = true -> Number_finite (Number_or x 0%float) = true.
Proof. unfold Number_or. by destruct (Number_falsy x). Qed.

(** ** Properties of the store's query language *)

(** The accumulators of a fold are the double sums of the four figures,
    each taken from its own start. *)
Lemma fold_Sums_add docs a :
  fold_left Sums_add docs a
  = mkSums (fold_left PrimFloat.add (map impressions docs) (totalImpressions a))
           (fold_left PrimFloat.add (map clicks docs) (totalClicks a))
           (fold_left PrimFloat.add (map conversions docs) (totalConversions a))
           (fold_left PrimFloat.add (map cost docs) (totalCost a)).
Proof.
  revert a. induction docs as [|r docs IH]; intros a; simpl.
  - by destruct a.
  - by rewrite IH.
Qed.

Lemma fold_Sums_add_zero docs :
  fold_left Sums_add docs Sums_zero = Sums_of_docs docs.
Proof. apply fold_Sums_add. Qed.

Section Grouping.
Context `{Countable K} (key : Analytics -> K).

Lemma with_key_cons_eq r docs :
  with_key key (key r) (r :: docs) = r :: with_key key (key r) docs.
Proof. unfold with_key; simpl. by rewrite bool_decide_eq_true_2. Qed.

Lemma with_key_cons_ne r docs k :
  key r <> k -> with_key key k (r :: docs) = with_key key k docs.
Proof. intros Hne. unfold with_key; simpl. by rewrite bool_decide_eq_false_2. Qed.

(** Folding further documents into the groups adds, to each group and in
    their order, the figures of the documents of its key, and opens a group
    for a key that had none as soon as a document carries it. *)
Lemma fold_group_lookup docs g k :
  fold_left (group_step key) docs g !! k
  = match g !! k, with_key key k docs with
    | None, [] => None
    | o, mine => Some (fold_left Sums_add mine (default Sums_zero o))
    end.
Proof.
  revert g. induction docs as [|r docs IH]; intros g.
  - simpl. by destruct (g !! k) as [a|].
  - cbn [fold_left]. rewrite IH. unfold group_step.
    destruct (decide (key r = k)) as [<-|Hne].
    + rewrite lookup_insert_eq, with_key_cons_eq. simpl.
      by destruct (g !! key r) as [a|].
    + rewrite lookup_insert_ne by done. by rewrite with_key_cons_ne.
Qed.

(** The accumulator of a group holds the double sums over the documents of
    its key, in the order of the collection. *)
Lemma group_docs_lookup docs k a :
  group_docs key docs !! k = Some a ->
  a = Sums_of_docs (with_key key k docs).
Proof.
  unfold group_docs. rewrite fold_group_lookup, lookup_empty.
  destruct (with_key key k docs) as [|r mine] eqn:Hmine; [done|].
  intros [= <-]. exact (fold_Sums_add_zero (r :: mine)).
Qed.

Lemma fold_group_keys docs g k :
  is_Some (fold_left (group_step key) docs g !! k)
  <-> is_Some (g !! k) \/ exists r, r ∈ docs /\ key r = k.
Proof.
  revert g. induction docs as [|r docs IH]; intros g; simpl.
  - split; [by left|]. intros [?|(r & Hr & _)]; [done|]. by apply elem_of_nil in Hr.
  - rewrite IH. unfold group_step. rewrite lookup_insert_is_Some'.
    split.
    + intros [[Hk|Hg]|(r' & Hr' & Hk)].
      * right. exists r. split; [by left|done].
      * by left.
      * right. exists r'. split; [by right|done].
    + intros [Hg|(r' & Hr' & Hk)]; [left; by right|].
      apply elem_of_cons in Hr' as [->|Hr']; [left; by left|].
      right. by exists r'.
Qed.

(** A group exists exactly for the key values met in the documents. *)
Lemma group_docs_keys docs k :
  is_Some (group_docs key docs !! k) <-> exists r, r ∈ docs /\ key r = k.
Proof.
  unfold group_docs. rewrite fold_group_keys.
  rewrite lookup_empty. split; [|by right].
  intros [[? ?]|?]; [done|done].
Qed.
End Grouping.

(** Grouping by the constant key leaves at most one group. *)
Lemma group_unit_rows (g : gmap unit Sums) :
  map_to_list g = [] \/ exists a, map_to_list g = [(tt, a)].
Proof.
  pose proof (NoDup_fst_map_to_list g) as Hnd.
  destruct (map_to_list g) as [|[[] a] [|[[] b] l]]; [by left|right; by exists a|].
  exfalso. simpl in Hnd. apply NoDup_cons in Hnd as [Hin _].
  apply Hin. by left.
Qed.

Lemma with_key_unit docs : with_key (fun _ : Analytics => tt) tt docs = docs.
Proof.
  unfold with_key. apply forallb_filter_id, forallb_forall. by intros r _.
Qed.

(** The one group of the constant key holds the double sums over all the
    documents. *)
Lemma group_unit_docs docs :
  map_to_list (group_docs (fun _ => tt) docs)
  = match docs with
    | [] => []
    | _ => [(tt, Sums_of_docs docs)]
    end.
Proof.
  destruct (group_unit_rows (group_docs (fun _ => tt) docs)) as [Hnil|[a Hone]].
  - rewrite Hnil. destruct docs as [|r docs]; [done|].
    apply map_to_list_empty_iff in Hnil.
    assert (Hsome : is_Some (group_docs (fun _ : Analytics => tt) (r :: docs) !! tt)).
    { apply group_docs_keys. exists r. split; [by left|done]. }
    rewrite Hnil, lookup_empty in Hsome. by destruct Hsome.
  - rewrite Hone.
    assert (Ha : group_docs (fun _ : Analytics => tt) docs !! tt = Some a).
    { apply elem_of_map_to_list. rewrite Hone. by left. }
    pose proof (group_docs_lookup _ _ _ _ Ha) as ->. rewrite with_key_unit.
    destruct docs as [|r docs]; [|done].
    unfold group_docs in Ha. simpl in Ha. by rewrite lookup_empty in Ha.
Qed.

(** ** The filter a service builds and the records it matches *)

Section Queries.
Variable cast : Cast.
Variable Date_new : string -> Z.

Lemma truthy_Some v : truthy v = true -> v = Some (js_to_string v).
Proof. by destruct v. Qed.

(** Sent uncast, in a pipeline, the filter matches the records in the date
    range when it names no identifier, and none when it names one. *)
Lemma matches_build_query company campaign start end_ r :
  matches (build_query Date_new company campaign start end_) r
  = bool_decide (pipeline_matches Date_new (Params.mk company campaign start end_) r).
Proof.
  apply eq_true_iff_eq. rewrite bool_decide_eq_true.
  unfold build_query, analyticsService.with_date_range, matches,
    pipeline_matches, date_ok, given; simpl.
  destruct (truthy company) eqn:Hc;
    (destruct (truthy campaign) eqn:Hp);
    (destruct (truthy start) eqn:Hs);
    (destruct (truthy end_) eqn:He); simpl;
    try destruct (companyId r); simpl;
    rewrite ?andb_true_iff, ?Z.leb_le;
    intuition (try congruence; try lia).
Qed.

Lemma filter_build_query company campaign start end_ docs :
  List.filter (matches (build_query Date_new company campaign start end_)) docs
  = pipeline_matched Date_new (Params.mk company campaign start end_) docs.
Proof.
  unfold pipeline_matched. apply List.filter_ext. intros r.
  apply matches_build_query.
Qed.

(** What a pipeline matches is among what the filter selects. *)
Lemma pipeline_matches_selects p r :
  pipeline_matches Date_new p r -> selects cast Date_new p r.
Proof.
  unfold pipeline_matches, selects, company_ok, campaign_ok.
  intros (Hc & Hp & Hd). split; [done|]. split; done.
Qed.

(** The filter of a campaign, as [find] casts it. *)
Lemma cast_campaign_query campaign start end_ :
  truthy campaign = true ->
  cast_query cast
    (analyticsService.with_date_range Date_new start end_
       (set_campaignId (js_to_string campaign) empty_query))
  = match cast (js_to_string campaign) with
    | Some o =>
        Some (analyticsService.with_date_range Date_new start end_
                (mkQuery None (Some (IdObject o)) None))
    | None => None
    end.
Proof.
  intros _. unfold analyticsService.with_date_range, cast_query.
  destruct (truthy start && truthy end_); simpl;
    by destruct (cast (js_to_string campaign)).
Qed.

Lemma matches_cast_campaign campaign start end_ o r :
  truthy campaign = true ->
  cast (js_to_string campaign) = Some o ->
  matches (analyticsService.with_date_range Date_new start end_
             (mkQuery None (Some (IdObject o)) None)) r
  = bool_decide (selects cast Date_new (Params.mk None campaign start end_) r).
Proof.
  intros Hgiven Hcast.
  apply eq_true_iff_eq. rewrite bool_decide_eq_true.
  unfold analyticsService.with_date_range, matches,
    selects, company_ok, campaign_ok, date_ok, given; simpl.
  rewrite Hgiven, Hcast.
  destruct (truthy start) eqn:Hs; destruct (truthy end_) eqn:He; simpl;
    rewrite ?andb_true_iff, ?bool_decide_eq_true, ?Z.leb_le;
    intuition (try congruence; try lia).
Qed.
End Queries.

(** ** Overview aggregation *)

Section Overview.
Variable Date_new : string -> Z.

(** [getOverview] resolves to the double sums, in the order of the
    collection, over the records its pipeline matches, a sum that is zero
    or no number replaced by [0]. *)
Lemma getOverview_result params s :
  result (analyticsService.getOverview Date_new params) s
  = Resolved
      (let hits := pipeline_matched Date_new (overview_filter params) (analytics s) in
       Overview.mk (Number_or (Number_sum (map impressions hits)) 0%float)
                   (Number_or (Number_sum (map clicks hits)) 0%float)
                   (Number_or (Number_sum (map conversions hits)) 0%float)
                   (Number_or (Number_sum (map cost hits)) 0%float)).
Proof.
  unfold result, analyticsService.getOverview, bind, Analytics_aggregate, ret.
  change (analyticsService.with_date_range Date_new _ _ _)
    with (build_query Date_new (Params.companyId params) None
            (Params.start params) (Params.end_ params)).
  rewrite filter_build_query. fold (overview_filter params).
  set (hits := pipeline_matched Date_new (overview_filter params) (analytics s)).
  rewrite group_unit_docs. by destruct hits.
Qed.

(** A filter that names a company matches nothing in the pipeline. *)
Lemma pipeline_matched_company p docs :
  truthy (Params.companyId p) = true -> pipeline_matched Date_new p docs = [].
Proof.
  intros Hc. apply elem_of_nil_inv. intros r. unfold pipeline_matched.
  rewrite list_elem_of_In, List.filter_In, bool_decide_eq_true.
  intros [_ (Hno & _)]. by apply Hno.
Qed.

Lemma pipeline_matched_campaign p docs :
  truthy (Params.campaignId p) = true -> pipeline_matched Date_new p docs = [].
Proof.
  intros Hc. apply elem_of_nil_inv. intros r. unfold pipeline_matched.
  rewrite list_elem_of_In, List.filter_In, bool_decide_eq_true.
  intros [_ (_ & Hno & _)]. by apply Hno.
Qed.

End Overview.

(** C1. [getOverview] does not give the sums over the records of the given
    company.  The sample store holds three records of one company, with
    impressions 1000, 2000 and 500, and the string of the request casts to
    the ObjectId of that company; asked for the company, [getOverview]
    resolves to four zeros: the pipeline's [$match] compares the string with
    the stored ObjectIds and matches no record. *)
Theorem getOverview_misses_company_records :
  ObjectId_of_hex acme = Some (mkObjectId acme)
  /\ map impressions (of_company (mkObjectId acme) (analytics sample_store))
     = [ 1000; 2000; 500 ]%float
  /\ result (analyticsService.getOverview Date_new_iso
               (Params.mk (Some acme) None None None)) sample_store
     = Resolved (Overview.mk 0 0 0 0).
Proof. split; [reflexivity|]. split; reflexivity. Qed.

(** ** Channel breakdown *)

Lemma Qcsum_app l l' : Qcsum (l ++ l') = (Qcsum l + Qcsum l')%Qc.
Proof. induction l as [|x l IH]; simpl; [ring|]. rewrite IH. ring. Qed.

Lemma Qcsum_map_plus {A} (f g : A -> Qc) l :
  Qcsum (map (fun k => f k + g k)%Qc l) = (Qcsum (map f l) + Qcsum (map g l))%Qc.
Proof. induction l as [|x l IH]; simpl; [ring|]. rewrite IH. ring. Qed.

Lemma Qcsum_map_zero {A} (l : list A) : Qcsum (map (fun _ => 0%Qc) l) = 0%Qc.
Proof. induction l as [|x l IH]; simpl; [done|]. rewrite IH. ring. Qed.

(** Over keys without repetition, one key takes the whole of a value that
    is handed to the key equal to [k0]. *)
Lemma Qcsum_indicator {K} `{EqDecision K} (keys : list K) (k0 : K) (a : Qc) :
  NoDup keys -> k0 ∈ keys ->
  Qcsum (map (fun k => if bool_decide (k0 = k) then a else 0%Qc) keys) = a.
Proof.
  induction keys as [|k keys IH]; intros Hnd Hin; [by apply elem_of_nil in Hin|].
  apply NoDup_cons in Hnd as [Hk Hnd]. simpl.
  destruct (bool_decide_reflect (k0 = k)) as [->|Hne].
  - replace (Qcsum _) with 0%Qc; [ring|].
    symmetry. transitivity (Qcsum (map (fun _ : K => 0%Qc) keys));
      [|apply Qcsum_map_zero].
    f_equal. apply map_ext_in.
    intros k' Hk'. rewrite bool_decide_eq_false_2; [reflexivity|].
    intros Heq. subst k'. by apply Hk, list_elem_of_In.
  - apply elem_of_cons in Hin as [?|Hin]; [done|]. rewrite IH by done. ring.
Qed.

(** Grouping the documents by a key splits an exact sum over them into the
    exact sums over the groups. *)
Lemma Qcsum_with_key {K} `{EqDecision K} (key : Analytics -> K)
    (v : Analytics -> Qc) (keys : list K) docs :
  NoDup keys ->
  (forall r, r ∈ docs -> key r ∈ keys) ->
  Qcsum (map (fun k => Qcsum (map v (with_key key k docs))) keys)
  = Qcsum (map v docs).
Proof.
  intros Hnd. induction docs as [|r docs IH]; intros Hkeys.
  - simpl. apply Qcsum_map_zero.
  - rewrite (map_ext _
      (fun k => (if bool_decide (key r = k) then v r else 0%Qc)
                + Qcsum (map v (with_key key k docs)))%Qc).
    + rewrite Qcsum_map_plus, Qcsum_indicator, IH; [done| |done|].
      * intros r' Hr'. apply Hkeys. by right.
      * apply Hkeys. by left.
    + intros k. unfold with_key. simpl.
      destruct (bool_decide (key r = k)); simpl; ring.
Qed.

(** When no rounding changes the sums of a figure, the accumulators of the
    channel groups add up exactly to the sum over all the documents. *)
Lemma groups_add_up_exactly (figure : Analytics -> JsNumber)
    (total : Sums -> JsNumber) docs :
  (forall l, total (Sums_of_docs l) = Number_sum (map figure l)) ->
  exact_on figure docs ->
  adds_up_exactly
    (map (fun g => total (snd g)) (map_to_list (group_docs channel docs)))
    (Number_or (Number_sum (map figure docs)) 0%float).
Proof.
  intros Htotal [(Hfin & Hsum & Hall) Heach].
  set (groups := map_to_list (group_docs channel docs)).
  assert (Hgroup : forall g, g ∈ groups ->
            total (snd g) = Number_sum (map figure (of_channel (fst g) docs))).
  { intros [k a] Hg. apply elem_of_map_to_list in Hg.
    apply (group_docs_lookup channel) in Hg. subst a. apply Htotal. }
  split; [|split].
  - intros x Hx. apply list_elem_of_In, in_map_iff in Hx as (g & <- & Hg).
    apply list_elem_of_In in Hg. rewrite (Hgroup g Hg). apply Heach.
  - by apply Number_or_zero_finite.
  - rewrite Number_or_zero_exact, Hall, !List.map_map.
    rewrite (map_ext_in _
      (fun g => Qcsum (map (fun r => Number_exact (figure r))
                         (with_key channel (fst g) docs)))).
    2: { intros g Hg. apply list_elem_of_In in Hg. rewrite (Hgroup g Hg).
         destruct (Heach (fst g)) as (_ & _ & ->). by rewrite List.map_map. }
    rewrite <- (List.map_map fst
      (fun k => Qcsum (map (fun r => Number_exact (figure r))
                         (with_key channel k docs)))).
    apply Qcsum_with_key.
    + apply (NoDup_fst_map_to_list (group_docs channel docs)).
    + intros r Hr.
      destruct (proj2 (group_docs_keys channel docs (channel r))) as [a Ha].
      { by exists r. }
      apply list_elem_of_In, in_map_iff. exists (channel r, a).
      split; [done|]. by apply list_elem_of_In, elem_of_map_to_list.
Qed.

Section Channels.
Variable cast : Cast.
Variable Date_new : string -> Z.

Lemma getChannelAnalytics_result params s :
  result (analyticsService.getChannelAnalytics Date_new params) s
  = Resolved (map analyticsService.project_channel
                (map_to_list (group_docs channel
                   (pipeline_matched Date_new params (analytics s))))).
Proof.
  unfold result, analyticsService.getChannelAnalytics, bind,
    Analytics_aggregate, ret.
  change (analyticsService.with_date_range Date_new _ _ _)
    with (build_query Date_new (Params.companyId params)
            (Params.campaignId params)
            (Params.start params) (Params.end_ params)).
  rewrite filter_build_query. by destruct params.
Qed.

(** A row's channel is the channel of a matched record. *)
Lemma channel_rows_observed params s rows row :
  result (analyticsService.getChannelAnalytics Date_new params) s = Resolved rows ->
  row ∈ rows ->
  exists r, r ∈ pipeline_matched Date_new params (analytics s)
            /\ channel r = ChannelRow.channel row.
Proof.
  rewrite getChannelAnalytics_result. intros [= <-] Hrow.
  apply list_elem_of_In, in_map_iff in Hrow as ([k a] & <- & Hka).
  apply list_elem_of_In, elem_of_map_to_list in Hka.
  apply (group_docs_keys channel). by exists a.
Qed.

(** Every channel met among the matched records has its row. *)
Lemma channel_rows_complete params s rows r :
  result (analyticsService.getChannelAnalytics Date_new params) s = Resolved rows ->
  r ∈ pipeline_matched Date_new params (analytics s) ->
  exists row, row ∈ rows /\ ChannelRow.channel row = channel r.
Proof.
  rewrite getChannelAnalytics_result. intros [= <-] Hr.
  destruct (proj2 (group_docs_keys channel
                     (pipeline_matched Date_new params (analytics s)) (channel r)))
    as [a Ha].
  { by exists r. }
  exists (analyticsService.project_channel (channel r, a)). split; [|reflexivity].
  apply list_elem_of_In, in_map, list_elem_of_In. by apply elem_of_map_to_list.
Qed.

(** No channel has two rows. *)
Lemma channel_rows_distinct params s rows :
  result (analyticsService.getChannelAnalytics Date_new params) s = Resolved rows ->
  NoDup (map ChannelRow.channel rows).
Proof.
  rewrite getChannelAnalytics_result. intros [= <-].
  rewrite List.map_map. simpl.
  apply (NoDup_fst_map_to_list
           (group_docs channel (pipeline_matched Date_new params (analytics s)))).
Qed.

(** Without a campaign the breakdown and the overview match alike. *)
Lemma pipeline_matched_no_campaign params docs :
  truthy (Params.campaignId params) = false ->
  pipeline_matched Date_new params docs
  = pipeline_matched Date_new (overview_filter params) docs.
Proof.
  intros Hnone. unfold pipeline_matched. apply List.filter_ext. intros r.
  apply bool_decide_ext.
  unfold pipeline_matches, given; simpl. rewrite Hnone.
  intuition congruence.
Qed.

Lemma elem_of_pipeline_matched params docs r :
  r ∈ pipeline_matched Date_new params docs
  <-> r ∈ docs /\ pipeline_matches Date_new params r.
Proof.
  unfold pipeline_matched.
  by rewrite !list_elem_of_In, List.filter_In, bool_decide_eq_true.
Qed.

(** C2, amended. For every store and every filter of an optional company
    and an optional date range, without a campaign: every row of
    [getChannelAnalytics] carries the channel of some record the filter
    selects; and for each of impressions, clicks, conversions and cost,
    when no rounding changes the double sums of the figure (over the
    records the pipeline matches, and over those of each channel among
    them), the figures of the rows are finite and add up exactly to the
    total [getOverview] gives for that filter. *)
Theorem channel_breakdown_sums_to_overview params s :
  truthy (Params.campaignId params) = false ->
  let hits := pipeline_matched Date_new params (analytics s) in
  exists rows totals,
    result (analyticsService.getChannelAnalytics Date_new params) s = Resolved rows
    /\ result (analyticsService.getOverview Date_new params) s = Resolved totals
    /\ (forall row, row ∈ rows ->
          exists r, r ∈ analytics s
                    /\ selects cast Date_new params r
                    /\ channel r = ChannelRow.channel row)
    /\ (exact_on impressions hits ->
        adds_up_exactly (map ChannelRow.impressions rows)
                        (Overview.impressions totals))
    /\ (exact_on clicks hits ->
        adds_up_exactly (map ChannelRow.clicks rows) (Overview.clicks totals))
    /\ (exact_on conversions hits ->
        adds_up_exactly (map ChannelRow.conversions rows)
                        (Overview.conversions totals))
    /\ (exact_on cost hits ->
        adds_up_exactly (map ChannelRow.cost rows) (Overview.cost totals)).
Proof.
  intros Hnone hits. eexists _, _.
  split; [apply getChannelAnalytics_result|].
  split; [apply getOverview_result|].
  split.
  { intros row Hrow.
    destruct (channel_rows_observed params s _ row
                (getChannelAnalytics_result params s) Hrow) as (r & Hr & Hch).
    apply elem_of_pipeline_matched in Hr as [Hin Hm].
    exists r. split; [done|]. split; [|done].
    by apply pipeline_matches_selects. }
  cbv zeta. rewrite <- (pipeline_matched_no_campaign _ _ Hnone). fold hits.
  rewrite !List.map_map. simpl.
  split; [|split; [|split]]; intros Hexact.
  - by apply (groups_add_up_exactly impressions totalImpressions).
  - by apply (groups_add_up_exactly clicks totalClicks).
  - by apply (groups_add_up_exactly conversions totalConversions).
  - by apply (groups_add_up_exactly cost totalCost).
Qed.

End Channels.

(** ** Sorting and limiting *)

Global Instance date_le_total : Total date_le.
Proof. intros a b. unfold date_le. lia. Qed.
Global Instance date_le_trans : Transitive date_le.
Proof. intros a b c. unfold date_le. lia. Qed.
Global Instance date_ge_total : Total date_ge.
Proof. intros a b. unfold date_ge. lia. Qed.
Global Instance date_ge_trans : Transitive date_ge.
Proof. intros a b c. unfold date_ge. lia. Qed.

Lemma matches_campaign o r :
  matches (mkQuery None (Some (IdObject o)) None) r = bool_decide (campaignId r = o).
Proof. unfold matches; simpl. by rewrite andb_true_r. Qed.

Lemma filter_campaign o docs :
  List.filter (matches (mkQuery None (Some (IdObject o)) None)) docs
  = of_campaign o docs.
Proof. apply List.filter_ext. intros r. apply matches_campaign. Qed.

Lemma elem_of_of_campaign o docs r :
  r ∈ of_campaign o docs <-> r ∈ docs /\ campaignId r = o.
Proof.
  unfold of_campaign. rewrite !list_elem_of_In, List.filter_In.
  by rewrite bool_decide_eq_true.
Qed.

(** The first [n] of the documents sorted by descending date are the [n]
    most recent. *)
Lemma take_sorted_most_recent n docs :
  most_recent n docs (take n (merge_sort date_ge docs)).
Proof.
  exists (drop n (merge_sort date_ge docs)).
  rewrite take_drop. split; [apply merge_sort_Permutation|].
  split; [apply StronglySorted_merge_sort; apply _|].
  rewrite length_take. by rewrite (Permutation_length (merge_sort_Permutation _ docs)).
Qed.

(** A [reduce] that adds a function of the items is the double sum of the
    mapped list. *)
Lemma fold_left_Number_sum {A} (f : A -> JsNumber) (l : list A) (acc : JsNumber) :
  fold_left (fun acc item => acc + f item)%float l acc
  = fold_left PrimFloat.add (map f l) acc.
Proof.
  revert acc. induction l as [|x l IH]; intros acc; simpl; [done|]. apply IH.
Qed.

Lemma item_cpc_cost_per_click r :
  analyticsService.item_cpc r = cost_per_click r.
Proof. reflexivity. Qed.

(** With no click the cost is divided by [1]; from one click on it is
    divided by the clicks: the divisor is [max(clicks, 1)]. *)
Lemma cost_per_click_no_click r :
  (clicks r =? 0)%float = true -> cost_per_click r = (cost r / 1)%float.
Proof.
  intros Hzero. unfold cost_per_click. by rewrite (Number_falsy_zero _ Hzero).
Qed.

Lemma cost_per_click_clicks r :
  (1 <=? clicks r)%float = true -> cost_per_click r = (cost r / clicks r)%float.
Proof.
  intros Hone. unfold cost_per_click. by rewrite (Number_falsy_from_one _ Hone).
Qed.

(** ** Recommendation heuristic *)

Lemma string_app_inv_head (p x y : string) : p +:+ x = p +:+ y -> x = y.
Proof. induction p as [|c p IH]; simpl; [done|]. intros [= Heq]. auto. Qed.

Lemma messages_differ campaign avg :
  analyticsService.high_cpc_message campaign avg
  <> analyticsService.performing_well_message campaign avg.
Proof.
  unfold analyticsService.high_cpc_message, analyticsService.performing_well_message.
  intros Heq.
  apply string_app_inv_head, string_app_inv_head in Heq.
  simpl in Heq. discriminate Heq.
Qed.

Section Recommendations.
Variable cast : Cast.

(** The query of [getRecommendations], cast. *)
Lemma getRecommendations_find campaign s :
  Analytics_find cast (set_campaignId (js_to_string campaign) empty_query)
    (Some DateDesc) (Some 7%nat) s
  = match cast (js_to_string campaign) with
    | Some o =>
        (Resolved (take 7 (merge_sort date_ge (of_campaign o (analytics s)))), s)
    | None => (Rejected CastError, s)
    end.
Proof.
  unfold Analytics_find, cast_query; simpl.
  destruct (cast (js_to_string campaign)) as [o|]; [|done].
  simpl. by rewrite filter_campaign.
Qed.

(** An identifier that is no ObjectId makes [getRecommendations] reject. *)
Lemma getRecommendations_cast_error campaign s :
  truthy campaign = true ->
  cast (js_to_string campaign) = None ->
  result (analyticsService.getRecommendations cast campaign) s = Rejected CastError.
Proof.
  intros Hgiven Hcast.
  unfold result, analyticsService.getRecommendations, bind.
  rewrite Hgiven; simpl. by rewrite getRecommendations_find, Hcast.
Qed.

Lemma getRecommendations_result campaign o s :
  truthy campaign = true ->
  cast (js_to_string campaign) = Some o ->
  let recent := take 7 (merge_sort date_ge (of_campaign o (analytics s))) in
  recent <> [] ->
  let averageCPC := Number_mean (map cost_per_click recent) in
  result (analyticsService.getRecommendations cast campaign) s
  = Resolved [ if (2 <? averageCPC)%float
               then analyticsService.high_cpc_message campaign averageCPC
               else analyticsService.performing_well_message campaign averageCPC ].
Proof.
  intros Hgiven Hcast recent Hne averageCPC.
  unfold result, analyticsService.getRecommendations, bind, ret.
  rewrite Hgiven; simpl. rewrite getRecommendations_find, Hcast. fold recent.
  destruct (Nat.eqb_spec (length recent) 0) as [Hlen|_].
  { exfalso. apply Hne. by apply nil_length_inv. }
  rewrite fold_left_Number_sum.
  change (fold_left PrimFloat.add (map analyticsService.item_cpc recent) 0%float)
    with (Number_sum (map cost_per_click recent)).
  replace (Number_of_nat (length recent))
    with (Number_of_nat (length (map cost_per_click recent)))
    by (by rewrite length_map).
  fold (Number_mean (map cost_per_click recent)). fold averageCPC.
  by destruct (2 <? averageCPC)%float.
Qed.

Lemma string_app_assoc (a b c : string) : (a +:+ b) +:+ c = a +:+ b +:+ c.
Proof.
  induction a as [|x a IH]; [done|].
  change (String x ((a +:+ b) +:+ c) = String x (a +:+ b +:+ c)).
  by rewrite IH.
Qed.

Lemma high_cpc_message_embeds campaign avg :
  embeds (Number_toFixed avg 2) (analyticsService.high_cpc_message campaign avg).
Proof.
  unfold embeds, analyticsService.high_cpc_message.
  eexists ("Campaign " +:+ js_to_string campaign +:+ " has a high average CPC of $"), _.
  by rewrite !string_app_assoc.
Qed.

Lemma performing_well_message_embeds campaign avg :
  embeds (Number_toFixed avg 2) (analyticsService.performing_well_message campaign avg).
Proof.
  unfold embeds, analyticsService.performing_well_message.
  eexists ("Campaign " +:+ js_to_string campaign
             +:+ " is performing well with an average CPC of $"), _.
  by rewrite !string_app_assoc.
Qed.

(** C3. For every campaign identifier with at least one analytics record,
    [getRecommendations] resolves to a one-element array.  Its string embeds
    the average CPC: the unweighted mean, in the double arithmetic of the
    code, over the [n] most recent records of the campaign by descending
    date ([1 <= n <= 7]), of cost divided by clicks with a zero click count
    replaced by [1] (so cost over [1] with no click and cost over the clicks
    from one click on: cost over [max(clicks, 1)]).  The string is the
    high-CPC one exactly when the average is strictly above [2]; at an
    average of exactly [2] it is the performing-well one. *)
Theorem getRecommendations_average_cpc campaign o s :
  given campaign ->
  cast (js_to_string campaign) = Some o ->
  (exists r, r ∈ analytics s /\ campaignId r = o) ->
  exists recent averageCPC text,
    result (analyticsService.getRecommendations cast campaign) s = Resolved [text]
    /\ most_recent 7 (of_campaign o (analytics s)) recent
    /\ (1 <= length recent <= 7)%nat
    /\ averageCPC = Number_mean (map cost_per_click recent)
    /\ (forall r, r ∈ recent ->
          ((clicks r =? 0)%float = true -> cost_per_click r = (cost r / 1)%float)
          /\ ((1 <=? clicks r)%float = true ->
              cost_per_click r = (cost r / clicks r)%float))
    /\ embeds (Number_toFixed averageCPC 2) text
    /\ (text = analyticsService.high_cpc_message campaign averageCPC
        <-> (2 <? averageCPC)%float = true)
    /\ (text = analyticsService.performing_well_message campaign averageCPC
        <-> (2 <? averageCPC)%float = false)
    /\ (averageCPC = 2%float ->
        text = analyticsService.performing_well_message campaign averageCPC).
Proof.
  intros Hgiven Hcast (r0 & Hr0 & Hc0).
  set (mine := of_campaign o (analytics s)).
  set (recent := take 7 (merge_sort date_ge mine)).
  pose proof (take_sorted_most_recent 7 mine) as Hrecent. fold recent in Hrecent.
  assert (Hlen : (1 <= length recent <= 7)%nat).
  { destruct Hrecent as (older & _ & _ & ->).
    assert (Hin : r0 ∈ mine) by (by apply elem_of_of_campaign).
    destruct mine as [|x mine']; [by apply elem_of_nil in Hin|].
    change (length (x :: mine')) with (S (length mine')). lia. }
  assert (Hne : recent <> []).
  { intros Heq. rewrite Heq in Hlen. simpl in Hlen. lia. }
  pose proof (getRecommendations_result campaign o s Hgiven Hcast Hne) as Hres.
  cbv zeta in Hres. fold mine recent in Hres.
  set (averageCPC := Number_mean (map cost_per_click recent)) in *.
  exists recent, averageCPC. eexists. split; [exact Hres|].
  split; [exact Hrecent|]. split; [exact Hlen|]. split; [reflexivity|].
  split.
  { intros r _. split; [apply cost_per_click_no_click|apply cost_per_click_clicks]. }
  pose proof (messages_differ campaign averageCPC) as Hdiff.
  destruct (2 <? averageCPC)%float eqn:Hhigh.
  - split; [apply high_cpc_message_embeds|].
    split; [done|]. split; [split; [congruence|done]|].
    intros Heq. rewrite Heq in Hhigh. discriminate Hhigh.
  - split; [apply performing_well_message_embeds|].
    split; [split; [intros Heq; by symmetry in Heq|done]|].
    split; [done|done].
Qed.

(** C5. Whatever the store holds, [getRecommendations] without a campaign
    identifier resolves to exactly the two fixed generic strings. *)
Theorem getRecommendations_generic campaign s :
  ~ given campaign ->
  exists texts,
    result (analyticsService.getRecommendations cast campaign) s = Resolved texts
    /\ length texts = 2%nat
    /\ texts ≡ₚ [ "Explore retargeting if conversions are below target.";
                  "Consider shifting budget to high-conversion channels." ].
Proof.
  unfold given. intros Hnone. apply not_true_is_false in Hnone.
  unfold result, analyticsService.getRecommendations. rewrite Hnone. simpl.
  eexists. split; [reflexivity|]. split; [reflexivity|]. apply perm_swap.
Qed.

(** C6, amended. With a campaign identifier that is an ObjectId no
    analytics record carries, [getRecommendations] resolves to the
    one-element array holding the fixed no-data string; with an identifier
    that is no ObjectId the query is rejected with a cast error. *)
Theorem getRecommendations_no_data campaign s :
  given campaign ->
  (forall r, r ∈ analytics s -> cast (js_to_string campaign) <> Some (campaignId r)) ->
  result (analyticsService.getRecommendations cast campaign) s
  = match cast (js_to_string campaign) with
    | Some _ => Resolved [ "No recent analytics data available for this campaign." ]
    | None => Rejected CastError
    end.
Proof.
  intros Hgiven Hnone.
  destruct (cast (js_to_string campaign)) as [o|] eqn:Hcast;
    [|by apply getRecommendations_cast_error].
  unfold result, analyticsService.getRecommendations, bind, ret.
  rewrite Hgiven; simpl. rewrite getRecommendations_find, Hcast.
  replace (of_campaign o (analytics s)) with (@nil Analytics).
  - reflexivity.
  - symmetry. apply elem_of_nil_inv. intros r Hr.
    apply elem_of_of_campaign in Hr as [Hr Hc]. apply (Hnone r Hr). by rewrite Hc.
Qed.
End Recommendations.

(** ** Campaign-scoped series *)

Section Series.
Variable cast : Cast.
Variable Date_new : string -> Z.

Lemma getCampaignAnalytics_result params s :
  truthy (Params.campaignId params) = true ->
  result (analyticsService.getCampaignAnalytics cast Date_new params) s
  = match cast (js_to_string (Params.campaignId params)) with
    | Some _ =>
        Resolved (Some (merge_sort date_le
                          (selected cast Date_new (campaign_filter params)
                             (analytics s))))
    | None => Rejected CastError
    end.
Proof.
  intros Hgiven.
  unfold result, analyticsService.getCampaignAnalytics, bind, Analytics_find, ret.
  rewrite Hgiven; simpl.
  rewrite (cast_campaign_query cast Date_new _ _ _ Hgiven).
  destruct (cast (js_to_string (Params.campaignId params))) as [o|] eqn:Hcast;
    [|done].
  simpl. do 3 f_equal. unfold selected, campaign_filter.
  apply List.filter_ext. intros r.
  by apply matches_cast_campaign.
Qed.

(** C4. Without a campaign identifier [getCampaignAnalytics] resolves to
    [null] and raises nothing, whereas a sibling with its required
    identifier missing rejects: [getIntegrations] without a company
    identifier throws. *)
Theorem getCampaignAnalytics_missing_campaign params company s :
  ~ given (Params.campaignId params) ->
  ~ given company ->
  result (analyticsService.getCampaignAnalytics cast Date_new params) s
  = Resolved None
  /\ result (integrationService.getIntegrations cast company) s
     = Rejected "companyId is required to retrieve integrations.".
Proof.
  unfold given. intros Hp%not_true_is_false Hc%not_true_is_false.
  unfold result, analyticsService.getCampaignAnalytics,
    integrationService.getIntegrations.
  by rewrite Hp, Hc.
Qed.


Lemma with_date_range_one_bound start end_ query :
  xorb (truthy start) (truthy end_) = true ->
  analyticsService.with_date_range Date_new start end_ query
  = analyticsService.with_date_range Date_new None None query.
Proof.
  unfold analyticsService.with_date_range.
  by destruct (truthy start), (truthy end_).
Qed.

(** C10. In [getOverview], [getCampaignAnalytics] and
    [getChannelAnalytics] the date filter applies only when both bounds are
    given: with exactly one of them, the result is the one obtained with no
    date restriction at all. *)
Theorem one_date_bound_is_no_restriction params s :
  xorb (truthy (Params.start params)) (truthy (Params.end_ params)) = true ->
  result (analyticsService.getOverview Date_new params) s
  = result (analyticsService.getOverview Date_new (without_dates params)) s
  /\ result (analyticsService.getCampaignAnalytics cast Date_new params) s
     = result (analyticsService.getCampaignAnalytics cast Date_new
                 (without_dates params)) s
  /\ result (analyticsService.getChannelAnalytics Date_new params) s
     = result (analyticsService.getChannelAnalytics Date_new (without_dates params)) s.
Proof.
  intros Hone.
  unfold analyticsService.getOverview, analyticsService.getCampaignAnalytics,
    analyticsService.getChannelAnalytics, without_dates; simpl.
  by rewrite !(with_date_range_one_bound _ _ _ Hone).
Qed.

(** Without date bounds every date is selected. *)
Lemma without_dates_selects params r :
  selects cast Date_new (without_dates params) r
  <-> company_ok cast (Params.companyId params) r
      /\ campaign_ok cast (Params.campaignId params) r.
Proof.
  unfold selects, without_dates, date_ok, given; simpl.
  intuition discriminate.
Qed.
End Series.

(** ** Aggregation is read-only *)

Lemma read_only_ret {A} (a : A) : read_only (ret a).
Proof. by intros s. Qed.

Lemma read_only_throw {A} e : read_only (@throw A e).
Proof. by intros s. Qed.

Lemma read_only_bind {A B} (m : M A) (k : A -> M B) :
  read_only m -> (forall a, read_only (k a)) -> read_only (bind m k).
Proof.
  intros Hm Hk s. unfold final, bind.
  specialize (Hm s). unfold final in Hm.
  destruct (m s) as [[a|e] s']; simpl in *; subst s'; [apply Hk|done].
Qed.

Lemma read_only_find cast q o n : read_only (Analytics_find cast q o n).
Proof. intros s. unfold final, Analytics_find. by destruct (cast_query cast q). Qed.

Lemma read_only_aggregate `{Countable K} q (key : Analytics -> K) :
  read_only (Analytics_aggregate q key).
Proof. by intros s. Qed.

(** The store can be written: insertion is not read-only. *)
Lemma Analytics_save_writes doc : ~ read_only (Analytics_save doc).
Proof.
  intros Hro. specialize (Hro (mkStore [] [])).
  unfold final, Analytics_save in Hro. simpl in Hro. discriminate Hro.
Qed.

Lemma Analytics_save_appends doc s :
  analytics (final (Analytics_save doc) s) = analytics s ++ [doc].
Proof. reflexivity. Qed.

(** C9. Each of [getOverview], [getCampaignAnalytics],
    [getChannelAnalytics] and [getRecommendations] leaves the store as it
    found it, for every store and every input: aggregation and reporting
    create, update and delete no analytics record. *)
Theorem aggregation_is_read_only (cast : Cast) (Date_new : string -> Z)
    (params : Params.t) (campaign : JsString) :
  read_only (analyticsService.getOverview Date_new params)
  /\ read_only (analyticsService.getCampaignAnalytics cast Date_new params)
  /\ read_only (analyticsService.getChannelAnalytics Date_new params)
  /\ read_only (analyticsService.getRecommendations cast campaign).
Proof.
  split; [|split; [|split]].
  - apply read_only_bind; [apply read_only_aggregate|].
    intros [|[k a] rest]; apply read_only_ret.
  - unfold analyticsService.getCampaignAnalytics.
    destruct (negb _); [apply read_only_ret|].
    apply read_only_bind; [apply read_only_find|]. intros; apply read_only_ret.
  - apply read_only_bind; [apply read_only_aggregate|].
    intros; apply read_only_ret.
  - unfold analyticsService.getRecommendations.
    destruct (negb _); [apply read_only_ret|].
    apply read_only_bind; [apply read_only_find|]. intros recentData.
    destruct (_ =? _)%nat; [apply read_only_ret|].
    destruct (_ <? _)%float; apply read_only_ret.
Qed.

(** ** Controller responses *)

Section Handlers.
Variable service : AnalyticsService.

(** A handler that awaits one service call and answers from its value
    satisfies the contract. *)
Lemma try_catch_contract {A} (miss : A -> bool) (call : M A)
    (on_miss on_failure : string) s :
  handler_contract miss (result call s)
    (result
       (try_catch
          (await value <- call ;;
           if miss value then ret (Response.mk 404 false None (Some on_miss))
           else ret (Response.mk 200 true (Some value) None))
          (fun error => ret (Response.mk 500 false None (Some on_failure))))
       s).
Proof.
  unfold handler_contract, result, try_catch, bind, ret, error_envelope.
  destruct (call s) as [[a|e] s']; simpl.
  - destruct (miss a); simpl; eexists; (split; [reflexivity|]); simpl; eauto 6.
  - eexists. split; [reflexivity|]. simpl. eauto 6.
Qed.

(** C8. Every analytics handler resolves to a response.  The response is
    the error body [{ success: false, message }] with status [500] exactly
    when the service call was rejected, and with status [404] exactly when
    the campaign-series service resolved to a falsy value; in every other
    case it is the [200] success body. *)
Theorem analytics_error_responses (req : Request.t) (s : Store) :
  handler_contract never
    (result (svc_getOverview service
               (Params.mk (Request.query_companyId req) None
                          (Request.query_start req) (Request.query_end req))) s)
    (result (analyticsController.getOverview service req) s)
  /\ handler_contract (fun v => negb (truthy_array v))
       (result (svc_getCampaignAnalytics service
                  (Params.mk None (Request.params_campaignId req)
                             (Request.query_start req) (Request.query_end req))) s)
       (result (analyticsController.getCampaignAnalytics service req) s)
  /\ handler_contract never
       (result (svc_getChannelAnalytics service
                  (Params.mk (Request.query_companyId req)
                             (Request.query_campaignId req)
                             (Request.query_start req) (Request.query_end req))) s)
       (result (analyticsController.getChannelAnalytics service req) s)
  /\ handler_contract never
       (result (svc_getRecommendations service (Request.query_campaignId req)) s)
       (result (analyticsController.getRecommendations service req) s).
Proof.
  split; [|split; [|split]].
  - apply (try_catch_contract never _ "").
  - apply try_catch_contract.
  - apply (try_catch_contract never _ "").
  - apply (try_catch_contract never _ "").
Qed.

(** A response that is not the [200] one is an error body with status
    [404] or [500]. *)
Lemma contract_error_shape {A} (miss : A -> bool) called answer resp :
  handler_contract miss called answer ->
  answer = Resolved resp ->
  Response.status resp <> 200 ->
  error_envelope resp /\ (Response.status resp = 404 \/ Response.status resp = 500).
Proof.
  intros (resp' & -> & Hcase) [= <-] Hstatus.
  destruct called as [a|e]; [destruct (miss a)|]; intuition.
Qed.
End Handlers.

(** What the campaign-series handler answers through the service of this
    repository: [404] without a campaign identifier, [500] for an
    identifier that is no ObjectId, and [200] with the sorted records
    otherwise. *)
Lemma series_handler_answer cast Date_new req s :
  let p := Params.mk None (Request.params_campaignId req)
             (Request.query_start req) (Request.query_end req) in
  result (analyticsController.getCampaignAnalytics
            (the_analyticsService cast Date_new) req) s
  = Resolved
      (if negb (truthy (Request.params_campaignId req)) then
         Response.mk 404 false None
           (Some ("No analytics found for campaign ID: "
                    +:+ js_to_string (Request.params_campaignId req)))
       else
         match cast (js_to_string (Request.params_campaignId req)) with
         | Some _ =>
             Response.mk 200 true
               (Some (Some (merge_sort date_le
                              (selected cast Date_new p (analytics s)))))
               None
         | None =>
             Response.mk 500 false None
               (Some "Failed to retrieve campaign analytics.")
         end).
Proof.
  intros p.
  destruct (truthy (Request.params_campaignId req)) eqn:Hc; simpl.
  - pose proof (getCampaignAnalytics_result cast Date_new p s Hc) as Hres.
    unfold result, analyticsController.getCampaignAnalytics, try_catch, bind,
      the_analyticsService in *. simpl in *. fold p.
    destruct (analyticsService.getCampaignAnalytics cast Date_new p s)
      as [[v|e] s']; simpl in Hres;
      destruct (cast (js_to_string (Request.params_campaignId req)));
      try discriminate; [|done].
    by injection Hres as ->.
  - unfold result, analyticsController.getCampaignAnalytics, try_catch, bind,
      the_analyticsService, analyticsService.getCampaignAnalytics. simpl.
    by rewrite Hc.
Qed.

(** Through the service of this repository the campaign-series handler
    answers [200] with an empty series when a campaign has no record: an
    empty array is truthy. *)
Lemma getCampaignAnalytics_empty_series cast Date_new req o s :
  given (Request.params_campaignId req) ->
  cast (js_to_string (Request.params_campaignId req)) = Some o ->
  (forall r, r ∈ analytics s -> campaignId r <> o) ->
  result (analyticsController.getCampaignAnalytics
            (the_analyticsService cast Date_new) req) s
  = Resolved (Response.mk 200 true (Some (Some [])) None).
Proof.
  intros Hgiven Hcast Hnone.
  rewrite series_handler_answer. cbv zeta. rewrite Hgiven, Hcast. simpl.
  replace (selected _ _ _ _) with (@nil Analytics); [done|].
  symmetry. apply elem_of_nil_inv. intros r.
  unfold selected. rewrite list_elem_of_In, List.filter_In, bool_decide_eq_true.
  intros [Hr (_ & Hc & _)]. apply (Hnone r); [by apply list_elem_of_In|].
  unfold campaign_ok in Hc. simpl in Hc. specialize (Hc Hgiven).
  rewrite Hcast in Hc. by injection Hc.
Qed.

(** ** The properties at work on sample data *)

Example Date_new_iso_epoch : Date_new_iso "1970-01-01" = 0.
Proof. reflexivity. Qed.

Example Date_new_iso_2024 : Date_new_iso "2024-01-02" = 1704153600000.
Proof. reflexivity. Qed.

Example toFixed_rounds : toFixed (Q2Qc (13 # 7)) 2 = "1.86".
Proof. vm_compute. reflexivity. Qed.

Example Number_toFixed_rounds :
  Number_toFixed (13 / 7)%float 2 = "1.86"
  /\ Number_toFixed 2%float 2 = "2.00"
  /\ Number_toFixed (0 / 0)%float 2 = "NaN".
Proof. split; [|split]; vm_compute; reflexivity. Qed.

Example ObjectId_of_hex_sample :
  ObjectId_of_hex "65A1F0000000000000000C01" = Some (mkObjectId cmp1)
  /\ ObjectId_of_hex "cmp1" = None.
Proof. split; reflexivity. Qed.

Example overview_all_january :
  result (analyticsService.getOverview Date_new_iso all_january) sample_store
  = Resolved (Overview.mk 2800 14 1 33.5).
Proof. vm_compute. reflexivity. Qed.

Example channels_all_january :
  result (analyticsService.getChannelAnalytics Date_new_iso all_january) sample_store
  = Resolved [ ChannelRow.mk "GoogleAds" 2300 4 0 11;
               ChannelRow.mk "Facebook" 500 10 1 22.5 ].
Proof. vm_compute. reflexivity. Qed.

(** Asked for a company, both aggregations find nothing. *)
Example overview_acme_january :
  result (analyticsService.getOverview Date_new_iso acme_january) sample_store
  = Resolved (Overview.mk 0 0 0 0)
  /\ result (analyticsService.getChannelAnalytics Date_new_iso acme_january)
            sample_store
     = Resolved [].
Proof. split; vm_compute; reflexivity. Qed.

Example series_cmp1 :
  outcome_map (option_map (map (fun r => (date r, channel r, clicks r))))
    (result (analyticsService.getCampaignAnalytics ObjectId_of_hex Date_new_iso
               (Params.mk None (Some cmp1) None None)) sample_store)
  = Resolved (Some [ (1704067200000, "GoogleAds", 0%float);
                     (1704153600000, "Facebook", 10%float);
                     (1704240000000, "Facebook", 50%float) ]).
Proof. vm_compute. reflexivity. Qed.

(** A route without its campaign parameter is answered [404]. *)
Example series_without_campaign :
  result (analyticsController.getCampaignAnalytics
            (the_analyticsService ObjectId_of_hex Date_new_iso)
            (Request.mk None None None None None)) sample_store
  = Resolved (Response.mk 404 false None
                (Some "No analytics found for campaign ID: undefined")).
Proof. reflexivity. Qed.

(** The week of the specification: the per-record ratios are
    2, 1, 2, 2, 2, 2, 2, their mean is the double nearest to 13/7, below
    the threshold. *)
Example week_recommendation :
  result (analyticsService.getRecommendations ObjectId_of_hex (Some cmp7)) week_store
  = Resolved [ analyticsService.performing_well_message (Some cmp7) (13 / 7)%float ]
  /\ embeds "1.86" (analyticsService.performing_well_message (Some cmp7) (13 / 7)%float).
Proof.
  split; [by vm_compute|].
  replace "1.86" with (Number_toFixed (13 / 7)%float 2) by (by vm_compute).
  apply performing_well_message_embeds.
Qed.

(** At an average of exactly 2 the campaign is performing well; above, its
    CPC is high. *)
Example threshold_recommendation :
  result (analyticsService.getRecommendations ObjectId_of_hex (Some cmp9))
         (single_store 2)
  = Resolved [ analyticsService.performing_well_message (Some cmp9) 2 ]
  /\ result (analyticsService.getRecommendations ObjectId_of_hex (Some cmp9))
            (single_store 2.5)
     = Resolved [ analyticsService.high_cpc_message (Some cmp9) 2.5 ].
Proof. split; by vm_compute. Qed.

(** The average is the one of double arithmetic: two records with one click
    each that cost [2 + 2^-51] and [2] have a mean above [2] in exact
    arithmetic, but their double sum rounds to [4], the average is [2], and
    the campaign is performing well. *)
Example rounded_mean_recommendation :
  result (analyticsService.getRecommendations ObjectId_of_hex (Some cmp9))
    (mkStore [ sample_doc cmp9 acme "2024-03-01" "Facebook" 10 1 0 0x1.0000000000001p+1;
               sample_doc cmp9 acme "2024-03-02" "Facebook" 10 1 0 2 ] [])
  = Resolved [ analyticsService.performing_well_message (Some cmp9) 2 ].
Proof. by vm_compute. Qed.

(** Concrete lists of numbers sum exactly when a computation says so. *)
Lemma sums_exactly_by_computation (l : list JsNumber) :
  forallb Number_finite l = true ->
  Number_finite (Number_sum l) = true ->
  this (Number_exact (Number_sum l)) = this (Qcsum (map Number_exact l)) ->
  sums_exactly l.
Proof.
  intros Hall Hsum Heq. split; [|split; [done|]].
  - intros x Hx. rewrite forallb_forall in Hall. by apply Hall, list_elem_of_In.
  - by apply Qc_is_canon; rewrite Heq.
Qed.

(** The sample records of early January sum exactly, as a whole and
    channel by channel. *)
Lemma all_january_exact (figure : Analytics -> JsNumber) :
  figure = impressions \/ figure = clicks \/ figure = conversions \/ figure = cost ->
  exact_on figure
    (pipeline_matched Date_new_iso all_january (analytics sample_store)).
Proof.
  intros Hfigure.
  change (pipeline_matched Date_new_iso all_january (analytics sample_store))
    with [ sample_doc cmp1 acme "2024-01-01" "GoogleAds" 2000 0 0 3;
           sample_doc cmp1 acme "2024-01-02" "Facebook" 500 10 1 22.5;
           sample_doc cmp2 globex "2024-01-02" "GoogleAds" 300 4 0 8 ].
  split.
  - destruct Hfigure as [-> | [-> | [-> | ->]]];
      apply sums_exactly_by_computation; by vm_compute.
  - intros c. unfold of_channel. simpl.
    destruct (bool_decide ("GoogleAds" = c)), (bool_decide ("Facebook" = c));
      destruct Hfigure as [-> | [-> | [-> | ->]]];
      apply sums_exactly_by_computation; by vm_compute.
Qed.

Lemma channel_breakdown_sums_to_overview_witness :
  truthy (Params.campaignId all_january) = false
  /\ exists rows totals,
       result (analyticsService.getChannelAnalytics Date_new_iso all_january)
              sample_store = Resolved rows
       /\ result (analyticsService.getOverview Date_new_iso all_january)
                 sample_store = Resolved totals
       /\ adds_up_exactly (map ChannelRow.impressions rows)
                          (Overview.impressions totals)
       /\ adds_up_exactly (map ChannelRow.cost rows) (Overview.cost totals).
Proof.
  split; [reflexivity|].
  destruct (channel_breakdown_sums_to_overview ObjectId_of_hex Date_new_iso
              all_january sample_store eq_refl)
    as (rows & totals & Hrows & Htotals & _ & Hi & _ & _ & Hc).
  exists rows, totals. split; [exact Hrows|]. split; [exact Htotals|].
  split; [apply Hi|apply Hc]; apply all_january_exact; auto.
Defined.

(** C2, as stated, fails. The three records of the store cost the doubles
    nearest to 0.3, 0.2 and 0.1, the first and the last on one channel.
    With no filter the breakdown has two rows, with the costs 0.2 and
    0.4 (the double sum of 0.3 and 0.1), and the overview's cost is the
    double sum of the three costs in their order, the double nearest to
    0.6.  The costs of the rows do not add up to it: not exactly, and not
    in double arithmetic either, where they sum to the next double,
    0.6000000000000001, in whichever order they are added. *)
Lemma channel_breakdown_counterexample :
  truthy (Params.campaignId no_filter) = false
  /\ exists rows totals,
       result (analyticsService.getChannelAnalytics Date_new_iso no_filter)
              tenths_store = Resolved rows
       /\ result (analyticsService.getOverview Date_new_iso no_filter)
                 tenths_store = Resolved totals
       /\ Qcsum (map Number_exact (map ChannelRow.cost rows))
          <> Number_exact (Overview.cost totals)
       /\ Number_sum (map ChannelRow.cost rows) <> Overview.cost totals
       /\ Number_sum (rev (map ChannelRow.cost rows)) <> Overview.cost totals
       /\ ~ adds_up_exactly (map ChannelRow.cost rows) (Overview.cost totals).
Proof.
  split; [reflexivity|]. eexists _, _.
  split; [vm_compute; reflexivity|]. split; [vm_compute; reflexivity|].
  assert (Hne : Qcsum (map Number_exact
                         [ 0x1.999999999999ap-3; 0x1.999999999999ap-2 ]%float)
                <> Number_exact 0x1.3333333333333p-1%float).
  { intros Heq. apply (f_equal this) in Heq. vm_compute in Heq. discriminate Heq. }
  split; [exact Hne|].
  split; [intros Heq; apply (f_equal Prim2SF) in Heq; vm_compute in Heq;
          discriminate Heq|].
  split; [intros Heq; apply (f_equal Prim2SF) in Heq; vm_compute in Heq;
          discriminate Heq|].
  intros (_ & _ & Heq). by apply Hne.
Qed.

(** The same on three channels: records that cost the doubles nearest to
    0.1, 0.2 and 0.3, each on a channel of its own, give three rows with
    these costs, and what the three stand for adds up to no double at all,
    so to no overview total. *)
Example three_channels_sum_is_no_double :
  let rows := [ 0x1.999999999999ap-4; 0x1.999999999999ap-3;
                0x1.3333333333333p-2 ]%float in
  Number_sum rows = 0x1.3333333333334p-1%float
  /\ Qcsum (map Number_exact rows) <> Number_exact 0x1.3333333333334p-1%float
  /\ Qcsum (map Number_exact rows) <> Number_exact 0x1.3333333333333p-1%float.
Proof.
  split; [reflexivity|].
  split; intros Heq; apply (f_equal this) in Heq; vm_compute in Heq;
    discriminate Heq.
Qed.

Lemma getRecommendations_average_cpc_witness :
  given (Some cmp1)
  /\ exists recent averageCPC text,
       result (analyticsService.getRecommendations ObjectId_of_hex (Some cmp1))
              sample_store
       = Resolved [text]
       /\ (1 <= length recent <= 7)%nat
       /\ averageCPC = Number_mean (map cost_per_click recent)
       /\ (text = analyticsService.high_cpc_message (Some cmp1) averageCPC
           <-> (2 <? averageCPC)%float = true).
Proof.
  split; [reflexivity|].
  destruct (getRecommendations_average_cpc ObjectId_of_hex (Some cmp1)
              (mkObjectId cmp1) sample_store eq_refl eq_refl)
    as (recent & avg & text & Hres & _ & Hlen & Havg & _ & _ & Hhigh & _).
  - eexists. split; [constructor|reflexivity].
  - exists recent, avg, text. auto.
Defined.

Lemma getCampaignAnalytics_missing_campaign_witness :
  ~ given (Params.campaignId acme_january)
  /\ ~ given (Some "")
  /\ result (analyticsService.getCampaignAnalytics ObjectId_of_hex Date_new_iso
               acme_january)
            sample_store = Resolved None
  /\ result (integrationService.getIntegrations ObjectId_of_hex (Some ""))
            sample_store
     = Rejected "companyId is required to retrieve integrations.".
Proof.
  assert (H1 : ~ given (Params.campaignId acme_january)) by (intros H; discriminate H).
  assert (H2 : ~ given (Some "")) by (intros H; discriminate H).
  split; [exact H1|]. split; [exact H2|].
  exact (getCampaignAnalytics_missing_campaign ObjectId_of_hex Date_new_iso
           acme_january (Some "") sample_store H1 H2).
Defined.

Lemma getRecommendations_generic_witness :
  ~ given None
  /\ exists texts,
       result (analyticsService.getRecommendations ObjectId_of_hex None) sample_store
       = Resolved texts
       /\ length texts = 2%nat.
Proof.
  assert (H1 : ~ given None) by (intros H; discriminate H).
  split; [exact H1|].
  destruct (getRecommendations_generic ObjectId_of_hex None sample_store H1)
    as (texts & Hres & Hlen & _).
  exists texts. auto.
Defined.

Lemma getRecommendations_no_data_witness :
  given (Some cmp3)
  /\ result (analyticsService.getRecommendations ObjectId_of_hex (Some cmp3))
            sample_store
     = Resolved [ "No recent analytics data available for this campaign." ].
Proof.
  split; [reflexivity|].
  apply (getRecommendations_no_data ObjectId_of_hex (Some cmp3) sample_store eq_refl).
  intros r Hr. apply list_elem_of_In in Hr. simpl in Hr.
  destruct Hr as [<-|[<-|[<-|[<-|[]]]]]; discriminate.
Defined.

(** C6, as stated, fails. No record of the sample store is under the
    identifier [cmp3], a non-empty string as a query string can carry it;
    [getRecommendations] does not resolve to the no-data string for it, the
    query is rejected with a cast error. *)
Lemma getRecommendations_no_data_counterexample :
  given (Some "cmp3")
  /\ (forall r, r ∈ analytics sample_store ->
        ObjectId_of_hex "cmp3" <> Some (campaignId r))
  /\ result (analyticsService.getRecommendations ObjectId_of_hex (Some "cmp3"))
            sample_store
     = Rejected CastError
  /\ result (analyticsService.getRecommendations ObjectId_of_hex (Some "cmp3"))
            sample_store
     <> Resolved [ "No recent analytics data available for this campaign." ].
Proof.
  split; [reflexivity|]. split; [intros r _; discriminate|].
  split; [reflexivity|discriminate].
Qed.



Lemma one_date_bound_is_no_restriction_witness :
  xorb (truthy (Params.start acme_from_january))
       (truthy (Params.end_ acme_from_january)) = true
  /\ result (analyticsService.getOverview Date_new_iso acme_from_january) sample_store
     = result (analyticsService.getOverview Date_new_iso
                 (without_dates acme_from_january)) sample_store.
Proof.
  split; [reflexivity|].
  apply (one_date_bound_is_no_restriction ObjectId_of_hex Date_new_iso
           acme_from_january sample_store eq_refl).
Defined.

(** ** Further properties of the analytics service *)

Section MoreAnalytics.
Variable cast : Cast.
Variable Date_new : string -> Z.


(** X2. The channel breakdown has one row per channel met among the
    records its pipeline matches: no channel has two rows, and a channel has
    a row exactly when a matched record carries it. *)
Theorem channel_rows_one_per_channel params s :
  exists rows,
    result (analyticsService.getChannelAnalytics Date_new params) s = Resolved rows
    /\ NoDup (map ChannelRow.channel rows)
    /\ forall c, c ∈ map ChannelRow.channel rows
                 <-> exists r, r ∈ pipeline_matched Date_new params (analytics s)
                               /\ channel r = c.
Proof.
  eexists. split; [apply getChannelAnalytics_result|].
  split; [by eapply channel_rows_distinct, getChannelAnalytics_result|].
  intros c. split.
  - intros Hc. apply list_elem_of_In, in_map_iff in Hc as (row & <- & Hrow).
    eapply channel_rows_observed; [apply getChannelAnalytics_result|].
    by apply list_elem_of_In.
  - intros (r & Hr & <-).
    destruct (channel_rows_complete Date_new params s _ r
                (getChannelAnalytics_result Date_new params s) Hr)
      as (row & Hrow & <-).
    apply list_elem_of_In, in_map, list_elem_of_In, Hrow.
Qed.

(** X24. An identifier in the filter of an aggregation matches nothing,
    whatever the store holds: with a company identifier [getOverview]
    resolves to four zeros, and with a company or a campaign identifier
    [getChannelAnalytics] resolves to no row.  The pipeline is not cast, so
    the string of the request is compared with the stored ObjectIds. *)
Theorem aggregation_identifiers_match_nothing params s :
  (given (Params.companyId params) ->
   result (analyticsService.getOverview Date_new params) s
   = Resolved (Overview.mk 0 0 0 0))
  /\ (given (Params.companyId params) \/ given (Params.campaignId params) ->
      result (analyticsService.getChannelAnalytics Date_new params) s
      = Resolved []).
Proof.
  unfold given. split.
  - intros Hc. rewrite getOverview_result.
    by rewrite (pipeline_matched_company Date_new (overview_filter params)).
  - intros Hsome. rewrite getChannelAnalytics_result.
    replace (pipeline_matched Date_new params (analytics s)) with (@nil Analytics).
    + unfold group_docs; simpl. by rewrite map_to_list_empty.
    + symmetry. destruct Hsome as [Hc|Hp];
        [by apply pipeline_matched_company|by apply pipeline_matched_campaign].
Qed.


(** X4. A date range whose start lies after its end selects nothing: the
    overview totals are zero, the channel breakdown has no row, and the
    series of a campaign whose identifier is an ObjectId is the empty
    array. *)
Theorem reversed_range_selects_nothing params s :
  given (Params.start params) ->
  given (Params.end_ params) ->
  Date_new (js_to_string (Params.end_ params))
  < Date_new (js_to_string (Params.start params)) ->
  result (analyticsService.getOverview Date_new params) s
  = Resolved (Overview.mk 0 0 0 0)
  /\ result (analyticsService.getChannelAnalytics Date_new params) s
     = Resolved []
  /\ (given (Params.campaignId params) ->
      is_Some (cast (js_to_string (Params.campaignId params))) ->
      result (analyticsService.getCampaignAnalytics cast Date_new params) s
      = Resolved (Some [])).
Proof.
  intros Hs He Hlt.
  assert (Hnone : forall p,
            Params.start p = Params.start params ->
            Params.end_ p = Params.end_ params ->
            pipeline_matched Date_new p (analytics s) = []).
  { intros p Hps Hpe. apply elem_of_nil_inv. intros r.
    rewrite elem_of_pipeline_matched.
    intros [_ (_ & _ & Hd)]. rewrite Hps, Hpe in Hd.
    specialize (Hd Hs He). lia. }
  split; [|split].
  - rewrite getOverview_result. by rewrite Hnone.
  - rewrite getChannelAnalytics_result. rewrite Hnone by done.
    unfold group_docs; simpl. by rewrite map_to_list_empty.
  - intros Hc [o Hcast]. rewrite getCampaignAnalytics_result by done.
    rewrite Hcast.
    replace (selected cast Date_new (campaign_filter params) (analytics s))
      with (@nil Analytics); [done|].
    symmetry. apply elem_of_nil_inv. intros r. unfold selected.
    rewrite list_elem_of_In, List.filter_In, bool_decide_eq_true.
    intros [_ (_ & _ & Hd)]. unfold date_ok, campaign_filter in Hd.
    simpl in Hd. specialize (Hd Hs He). lia.
Qed.

End MoreAnalytics.

Lemma reversed_range_selects_nothing_witness :
  result (analyticsService.getOverview Date_new_iso
            (Params.mk None (Some cmp1)
                       (Some "2024-01-03") (Some "2024-01-01"))) sample_store
  = Resolved (Overview.mk 0 0 0 0)
  /\ result (analyticsService.getCampaignAnalytics ObjectId_of_hex Date_new_iso
               (Params.mk None (Some cmp1)
                          (Some "2024-01-03") (Some "2024-01-01"))) sample_store
     = Resolved (Some []).
Proof.
  pose proof (reversed_range_selects_nothing ObjectId_of_hex Date_new_iso
                (Params.mk None (Some cmp1)
                           (Some "2024-01-03") (Some "2024-01-01"))
                sample_store eq_refl eq_refl eq_refl) as (Ho & _ & Hs).
  split; [exact Ho|]. apply Hs; [reflexivity|]. by eexists.
Defined.

(** A route whose campaign identifier is no ObjectId is answered [500]. *)
Example series_with_malformed_campaign :
  result (analyticsController.getCampaignAnalytics
            (the_analyticsService ObjectId_of_hex Date_new_iso)
            (Request.mk (Some "cmp1") None None None None)) sample_store
  = Resolved (Response.mk 500 false None
                (Some "Failed to retrieve campaign analytics.")).
Proof. reflexivity. Qed.

(** ** Registration, login and profile *)

Lemma existsb_false_iff {A} (f : A -> bool) l :
  existsb f l = false <-> forall x, x ∈ l -> f x = false.
Proof.
  induction l as [|y l IH]; simpl.
  - split; [intros _ x Hx; by apply elem_of_nil in Hx|done].
  - rewrite orb_false_iff, IH. split.
    + intros [Hy Hl] x Hx. apply elem_of_cons in Hx as [->|Hx]; auto.
    + intros Hall. split; [apply Hall; by left|].
      intros x Hx. apply Hall. by right.
Qed.

Lemma find_Some_elem {A} (f : A -> bool) l x :
  List.find f l = Some x -> x ∈ l /\ f x = true.
Proof. intros Hf. apply List.find_some in Hf as [Hin Hx]. by rewrite list_elem_of_In. Qed.

Lemma find_None_elem {A} (f : A -> bool) l :
  List.find f l = None <-> forall x, x ∈ l -> f x = false.
Proof.
  split.
  - intros Hf x Hx. apply (List.find_none _ _ Hf). by apply list_elem_of_In.
  - intros Hall. destruct (List.find f l) as [x|] eqn:Hf; [|done].
    apply find_Some_elem in Hf as [Hin Hx]. rewrite (Hall x Hin) in Hx. discriminate.
Qed.

(** In a list without repeated keys, the first element with a key is the
    only one. *)
Lemma find_unique {A B} `{EqDecision B} (key : A -> B) l x :
  NoDup (map key l) -> x ∈ l ->
  List.find (fun y => bool_decide (key y = key x)) l = Some x.
Proof.
  induction l as [|y l IH]; intros Hnd Hx; [by apply elem_of_nil in Hx|].
  simpl in *. apply NoDup_cons in Hnd as [Hy Hnd].
  destruct (bool_decide_reflect (key y = key x)) as [Heq|Hne].
  - apply elem_of_cons in Hx as [->|Hx]; [done|].
    exfalso. apply Hy. rewrite Heq. apply list_elem_of_In, in_map.
    by apply list_elem_of_In.
  - apply elem_of_cons in Hx as [->|Hx]; [done|]. by apply IH.
Qed.

Section Auth.
Variable lib : Platform.t.

Lemma registerUser_existing env email password firstName lastName us u :
  u ∈ us -> has_email lib email u ->
  authService.registerUser lib env email password firstName lastName us
  = (Thrown (mkJsError "User with this email already exists." (Some 11000)), us).
Proof.
  intros Hu Hmail.
  unfold authService.registerUser, and_then, UserModel.findOne_email.
  destruct (List.find _ us) as [u0|] eqn:Hfind; [reflexivity|].
  pose proof (proj1 (find_None_elem _ _) Hfind u Hu) as Hno.
  by apply bool_decide_eq_false in Hno.
Qed.

Lemma registerUser_fresh env email password firstName lastName us :
  let doc := registered_user lib env email password firstName lastName in
  (forall u, u ∈ us -> ~ has_email lib email u /\ User._id u <> Env.ObjectId env) ->
  User.email doc <> "" ->
  User.passwordHash doc <> "" ->
  authService.registerUser lib env email password firstName lastName us
  = (Fulfilled (PublicUser_of doc), us ++ [doc]).
Proof.
  intros doc Hfresh Hmail Hhash.
  unfold authService.registerUser, and_then, UserModel.findOne_email.
  replace (List.find _ us) with (@None User.t).
  2: { symmetry. apply find_None_elem. intros u Hu.
       apply bool_decide_eq_false. by apply Hfresh. }
  unfold UserModel.save, UserModel.create, resolve; simpl.
  apply String.eqb_neq in Hmail, Hhash. simpl in Hmail, Hhash.
  rewrite Hmail, Hhash; simpl.
  replace (existsb _ us) with false; [reflexivity|].
  symmetry. apply existsb_false_iff. intros u Hu.
  destruct (Hfresh u Hu) as [Hm Hi].
  apply orb_false_iff. split; by apply bool_decide_eq_false.
Qed.

(** A registration that is fulfilled has appended its document; one that is
    rejected has left the collection alone. *)
Lemma registerUser_effect env email password firstName lastName us :
  let doc := registered_user lib env email password firstName lastName in
  let run := authService.registerUser lib env email password firstName lastName us in
  (run = (Fulfilled (PublicUser_of doc), us ++ [doc])
   /\ (forall u, u ∈ us -> ~ has_email lib email u /\ User._id u <> Env.ObjectId env))
  \/ (exists err, run = (Thrown err, us)).
Proof.
  intros doc run. subst run.
  unfold authService.registerUser, and_then, UserModel.findOne_email.
  destruct (List.find _ us) as [u0|] eqn:Hfind; [right; by eexists|].
  unfold UserModel.save, UserModel.create, resolve; simpl.
  destruct (String.eqb _ "" || String.eqb _ ""); [right; by eexists|].
  destruct (existsb _ us) eqn:Htaken; [right; by eexists|].
  left. split; [reflexivity|]. intros u Hu. split.
  - pose proof (proj1 (find_None_elem _ _) Hfind u Hu) as Hno.
    by apply bool_decide_eq_false in Hno.
  - pose proof (proj1 (existsb_false_iff _ _) Htaken u Hu) as Hno.
    apply orb_false_iff in Hno as [Hid _]. by apply bool_decide_eq_false in Hid.
Qed.
End Auth.

Lemma find_app_None {A} (f : A -> bool) l l' :
  List.find f l = None -> List.find f (l ++ l') = List.find f l'.
Proof.
  induction l as [|x l IH]; simpl; [done|].
  destruct (f x); [discriminate|exact IH].
Qed.

Section AuthHandlers.
Variable lib : Platform.t.

(** X6. Registering an address that a stored user already has is answered
    [409] with the duplicate message, and the collection stays as it was. *)
Theorem register_duplicate_email_conflict env req us u :
  given (AuthRequest.body_email req) ->
  given (AuthRequest.body_password req) ->
  u ∈ us ->
  has_email lib (js_to_string (AuthRequest.body_email req)) u ->
  settles (authController.register (the_authService lib) env req) us
  = Fulfilled (Response.mk 409 false None
                 (Some "User with this email already exists."))
  /\ leaves (authController.register (the_authService lib) env req) us = us.
Proof.
  unfold given. intros He Hp Hu Hmail.
  unfold settles, leaves, authController.register, catching, and_then,
    the_authService; simpl.
  rewrite He, Hp; simpl.
  by rewrite (registerUser_existing lib env _ _ _ _ us u Hu Hmail).
Qed.

(** X7. Registering a new address stores exactly one more user, last in the
    collection: under the address as the setter writes it, with the bcrypt
    hash of the password, the role [marketer] and both timestamps; the
    answer is [201] with the user's public fields. *)
Theorem register_stores_hashed_user env req us :
  let email := js_to_string (AuthRequest.body_email req) in
  let password := js_to_string (AuthRequest.body_password req) in
  let doc := registered_user lib env email password
               (AuthRequest.body_firstName req) (AuthRequest.body_lastName req) in
  given (AuthRequest.body_email req) ->
  given (AuthRequest.body_password req) ->
  (forall u, u ∈ us -> ~ has_email lib email u /\ User._id u <> Env.ObjectId env) ->
  User.email doc <> "" ->
  User.passwordHash doc <> "" ->
  settles (authController.register (the_authService lib) env req) us
  = Fulfilled (Response.mk 201 true (Some (PublicUser_of doc))
                 (Some "User registered successfully."))
  /\ leaves (authController.register (the_authService lib) env req) us
     = us ++ [doc].
Proof.
  intros email password doc. subst email password doc.
  unfold given. intros He Hp Hfresh Hmail Hhash.
  unfold settles, leaves, authController.register, catching, and_then,
    the_authService; simpl.
  rewrite He, Hp; simpl.
  by rewrite (registerUser_fresh lib env _ _ _ _ us Hfresh Hmail Hhash).
Qed.

(** X8. The register handler always answers, with [201], [400], [409] or
    [500]; it changes the collection only when it answers [201], and then
    by appending the one registered user. *)
Theorem register_changes_only_on_201 env req us :
  let doc := registered_user lib env
               (js_to_string (AuthRequest.body_email req))
               (js_to_string (AuthRequest.body_password req))
               (AuthRequest.body_firstName req) (AuthRequest.body_lastName req) in
  exists resp,
    settles (authController.register (the_authService lib) env req) us
    = Fulfilled resp
    /\ ((Response.status resp = 201
         /\ leaves (authController.register (the_authService lib) env req) us
            = us ++ [doc])
        \/ ((Response.status resp = 400 \/ Response.status resp = 409
             \/ Response.status resp = 500)
            /\ Response.success resp = false
            /\ leaves (authController.register (the_authService lib) env req) us
               = us)).
Proof.
  intros doc.
  unfold settles, leaves, authController.register, catching, and_then,
    the_authService; simpl.
  destruct (negb _ || negb _); simpl.
  { eexists. split; [reflexivity|]. right. simpl. auto. }
  destruct (registerUser_effect lib env
              (js_to_string (AuthRequest.body_email req))
              (js_to_string (AuthRequest.body_password req))
              (AuthRequest.body_firstName req) (AuthRequest.body_lastName req) us)
    as [[Hrun _]|[err Hrun]]; rewrite Hrun; simpl.
  - eexists. split; [reflexivity|]. left. simpl. auto.
  - destruct (bool_decide _); simpl; eexists; (split; [reflexivity|]);
      right; simpl; auto.
Qed.

(** X10. Registration keeps the stored identifiers and the stored addresses
    free of repetitions. *)
Theorem registerUser_keeps_users_unique env email password firstName lastName us :
  NoDup (map User._id us) ->
  NoDup (map User.email us) ->
  let us' := leaves (authService.registerUser lib env email password
                       firstName lastName) us in
  NoDup (map User._id us') /\ NoDup (map User.email us').
Proof.
  intros Hids Hmails us'. subst us'. unfold leaves.
  destruct (registerUser_effect lib env email password firstName lastName us)
    as [[Hrun Hfresh]|[err Hrun]]; rewrite Hrun; simpl; [|done].
  rewrite !map_app; simpl. split.
  - apply NoDup_app. split; [done|]. split; [|apply NoDup_singleton].
    intros i Hi Hi'. apply list_elem_of_singleton in Hi'. subst i.
    apply list_elem_of_In, in_map_iff in Hi as (u & Hid & Hu).
    apply list_elem_of_In in Hu. by destruct (Hfresh u Hu).
  - apply NoDup_app. split; [done|]. split; [|apply NoDup_singleton].
    intros m Hm Hm'. apply list_elem_of_singleton in Hm'. subst m.
    apply list_elem_of_In, in_map_iff in Hm as (u & Hmail & Hu).
    apply list_elem_of_In in Hu. by destruct (Hfresh u Hu).
Qed.

Lemma loginUser_found env email password us u :
  List.find (fun u => bool_decide (has_email lib email u)) us = Some u ->
  authService.loginUser lib env email password us
  = (Fulfilled
       (if Platform.bcrypt_compare lib password (User.passwordHash u)
        then Login.mk
               (Some (Platform.jwt_sign lib
                        (JwtPayload.mk (User._id u) (User.role u))
                        (jwt_secret lib) "1d" (Env.issued_at env)))
               (Some (PublicUser_of u))
        else Login.mk None None),
     us).
Proof.
  intros Hfind.
  unfold authService.loginUser, and_then, UserModel.findOne_email.
  change (List.find _ us)
    with (List.find (fun u => bool_decide (has_email lib email u)) us).
  rewrite Hfind. by destruct (Platform.bcrypt_compare _ _ _).
Qed.

(** X11. After a registration that succeeded, logging in with the same
    address and password yields a token for the new user, signed with the
    configured secret (or the default one) for one day, and the user's
    public fields, provided bcrypt accepts the password against its own
    hash. *)
Theorem login_after_register env env' email password firstName lastName us registered :
  settles (authService.registerUser lib env email password firstName lastName) us
  = Fulfilled registered ->
  Platform.bcrypt_compare lib password
    (Platform.bcrypt_hash lib password 10 (Env.salt env)) = true ->
  settles (authService.loginUser lib env' email password)
    (leaves (authService.registerUser lib env email password firstName lastName) us)
  = Fulfilled
      (Login.mk
         (Some (Platform.jwt_sign lib
                  (JwtPayload.mk (Env.ObjectId env) "marketer")
                  (jwt_secret lib) "1d" (Env.issued_at env')))
         (Some registered)).
Proof.
  unfold settles, leaves. intros Hreg Hcompare.
  destruct (registerUser_effect lib env email password firstName lastName us)
    as [[Hrun Hfresh]|[err Hrun]]; rewrite Hrun in *; simpl in *; [|discriminate].
  injection Hreg as <-.
  set (doc := registered_user lib env email password firstName lastName).
  rewrite (loginUser_found env' email password _ doc).
  - simpl. by rewrite Hcompare.
  - rewrite find_app_None.
    + simpl. by rewrite bool_decide_eq_true_2.
    + apply find_None_elem. intros u Hu. apply bool_decide_eq_false.
      by apply Hfresh.
Qed.
End AuthHandlers.

Section AuthValidation.
Variable service : AuthService.

(** X9. Whatever the auth service does, a request without an email or
    without a password is answered [400] by the register and the login
    handlers, and a request without an authenticated user is answered [401]
    by the profile handler, each time before the service is called: the
    collection is as it was. *)
Theorem auth_requests_validated_first env req us :
  (~ (given (AuthRequest.body_email req) /\ given (AuthRequest.body_password req)) ->
   authController.register service env req us
   = (Fulfilled (Response.mk 400 false None
                   (Some "Missing required fields: email or password.")), us)
   /\ authController.login service env req us
      = (Fulfilled (Response.mk 400 false None
                      (Some "Missing required fields: email or password.")), us))
  /\ (~ given (AuthRequest.user_userId req) ->
      authController.getProfile service req us
      = (Fulfilled (Response.mk 401 false None
                      (Some "Unauthorized. No valid user token found.")), us)).
Proof.
  unfold given. split.
  - intros Hmiss.
    assert (Hguard : negb (truthy (AuthRequest.body_email req))
                     || negb (truthy (AuthRequest.body_password req)) = true).
    { destruct (truthy (AuthRequest.body_email req)),
        (truthy (AuthRequest.body_password req)); try done.
      by destruct Hmiss. }
    unfold authController.register, authController.login, catching.
    by rewrite Hguard.
  - intros Hnone%not_true_is_false.
    unfold authController.getProfile, catching. by rewrite Hnone.
Qed.
End AuthValidation.

Section AuthLogin.
Variable lib : Platform.t.

Lemma loginUser_unknown env email password us :
  (forall u, u ∈ us -> ~ has_email lib email u) ->
  authService.loginUser lib env email password us
  = (Fulfilled (Login.mk None None), us).
Proof.
  intros Hnone.
  unfold authService.loginUser, and_then, UserModel.findOne_email.
  replace (List.find _ us) with (@None User.t); [reflexivity|].
  symmetry. apply find_None_elem. intros u Hu.
  apply bool_decide_eq_false. by apply Hnone.
Qed.

(** X12. An address no user is stored under and a password bcrypt does not
    accept get the same answer: the service resolves to a null token and a
    null user, the handler answers [401] with [Invalid credentials.], and
    the collection is as it was. *)
Theorem login_bad_credentials env req us :
  given (AuthRequest.body_email req) ->
  given (AuthRequest.body_password req) ->
  (forall u, u ∈ us ->
     has_email lib (js_to_string (AuthRequest.body_email req)) u ->
     Platform.bcrypt_compare lib (js_to_string (AuthRequest.body_password req))
       (User.passwordHash u) = false) ->
  authService.loginUser lib env (js_to_string (AuthRequest.body_email req))
    (js_to_string (AuthRequest.body_password req)) us
  = (Fulfilled (Login.mk None None), us)
  /\ authController.login (the_authService lib) env req us
     = (Fulfilled (Response.mk 401 false None (Some "Invalid credentials.")), us).
Proof.
  unfold given. intros He Hp Hbad.
  set (email := js_to_string (AuthRequest.body_email req)) in *.
  set (password := js_to_string (AuthRequest.body_password req)) in *.
  assert (Hsvc : authService.loginUser lib env email password us
                 = (Fulfilled (Login.mk None None), us)).
  { destruct (List.find (fun u => bool_decide (has_email lib email u)) us)
      as [u|] eqn:Hfind.
    - rewrite (loginUser_found lib env email password us u Hfind).
      apply find_Some_elem in Hfind as [Hu Hmail].
      apply bool_decide_eq_true in Hmail. by rewrite (Hbad u Hu Hmail).
    - apply loginUser_unknown. intros u Hu.
      pose proof (proj1 (find_None_elem _ _) Hfind u Hu) as Hno.
      by apply bool_decide_eq_false in Hno. }
  split; [exact Hsvc|].
  unfold authController.login, catching, and_then, the_authService; simpl.
  rewrite He, Hp; simpl. fold email password. by rewrite Hsvc.
Qed.

(** X15. With unrepeated addresses in the collection, the address of a
    stored user and a password bcrypt accepts against the stored hash are
    answered [200] with a token whose payload names that user and its role,
    and with the user's public fields, as long as the token is not the empty
    string. *)
Theorem login_valid_credentials env req us u :
  let token :=
    Platform.jwt_sign lib (JwtPayload.mk (User._id u) (User.role u))
      (jwt_secret lib) "1d" (Env.issued_at env) in
  given (AuthRequest.body_email req) ->
  given (AuthRequest.body_password req) ->
  NoDup (map User.email us) ->
  u ∈ us ->
  has_email lib (js_to_string (AuthRequest.body_email req)) u ->
  Platform.bcrypt_compare lib (js_to_string (AuthRequest.body_password req))
    (User.passwordHash u) = true ->
  token <> "" ->
  authController.login (the_authService lib) env req us
  = (Fulfilled (Response.mk 200 true
                  (Some (Login.mk (Some token) (Some (PublicUser_of u))))
                  (Some "Login successful.")), us).
Proof.
  intros token. unfold given. intros He Hp Hnd Hu Hmail Hok Htoken.
  unfold authController.login, catching, and_then, the_authService; simpl.
  rewrite He, Hp; simpl.
  rewrite (loginUser_found lib env _ _ us u).
  - rewrite Hok. simpl. fold token.
    apply String.eqb_neq in Htoken. by rewrite Htoken.
  - pose proof (find_unique User.email us u Hnd Hu) as Hfind.
    unfold has_email in Hmail. rewrite Hmail in Hfind. exact Hfind.
Qed.

Lemma loginUser_settles env email password us :
  exists found,
    authService.loginUser lib env email password us = (Fulfilled found, us).
Proof.
  destruct (List.find (fun u => bool_decide (has_email lib email u)) us)
    as [u|] eqn:Hfind.
  - rewrite (loginUser_found lib env email password us u Hfind). by eexists.
  - rewrite loginUser_unknown; [by eexists|]. intros u Hu.
    pose proof (proj1 (find_None_elem _ _) Hfind u Hu) as Hno.
    by apply bool_decide_eq_false in Hno.
Qed.

(** Reading a profile settles, fulfilled or rejected, with the collection
    as it was. *)
Lemma getUserProfile_settles userId us :
  exists found, authService.getUserProfile lib userId us = (found, us).
Proof.
  unfold authService.getUserProfile, and_then, UserModel.findById.
  destruct (Platform.ObjectId_cast lib userId) as [id|]; [|by eexists].
  match goal with |- context [List.find ?f us] =>
    destruct (List.find f us) end; by eexists.
Qed.

(** X13. Logging in and reading a profile never change the collection. *)
Theorem login_and_profile_read_only env req us :
  leaves (authController.login (the_authService lib) env req) us = us
  /\ leaves (authController.getProfile (the_authService lib) req) us = us.
Proof.
  unfold leaves. split.
  - unfold authController.login, catching, and_then, the_authService; simpl.
    destruct (negb _ || negb _); [done|].
    destruct (loginUser_settles env (js_to_string (AuthRequest.body_email req))
                (js_to_string (AuthRequest.body_password req)) us) as [found ->].
    by destruct (negb (truthy (Login.token found))).
  - unfold authController.getProfile, catching, and_then, the_authService; simpl.
    destruct (negb _); [done|].
    destruct (getUserProfile_settles
                (js_to_string (AuthRequest.user_userId req)) us) as [found ->].
    by destruct found as [[u|]|err].
Qed.

(** X14. With unrepeated identifiers in the collection, the profile handler
    answers an authenticated request [200] with the stored user's fields
    other than the password hash when the identifier of the token casts to
    the ObjectId of a stored user, [404] when it casts to an ObjectId no
    stored user has, and [500] when it is no ObjectId. *)
Theorem getProfile_found_or_404 req us :
  let id := Platform.ObjectId_cast lib (js_to_string (AuthRequest.user_userId req)) in
  given (AuthRequest.user_userId req) ->
  NoDup (map User._id us) ->
  (forall u, u ∈ us -> id = Some (User._id u) ->
     settles (authController.getProfile (the_authService lib) req) us
     = Fulfilled (Response.mk 200 true (Some (UserData_of u)) None))
  /\ (is_Some id -> (forall u, u ∈ us -> id <> Some (User._id u)) ->
      settles (authController.getProfile (the_authService lib) req) us
      = Fulfilled (Response.mk 404 false None (Some "User not found.")))
  /\ (id = None ->
      settles (authController.getProfile (the_authService lib) req) us
      = Fulfilled (Response.mk 500 false None
                     (Some "Failed to retrieve user profile."))).
Proof.
  intros id. unfold given. intros Hid Hnd.
  unfold settles, authController.getProfile, catching, the_authService,
    authService.getUserProfile, UserModel.findById, and_then; simpl.
  rewrite Hid; simpl. fold id. split; [|split].
  - intros u Hu ->.
    by rewrite (find_unique User._id us u Hnd Hu).
  - intros [o Ho] Hnone. rewrite Ho in *.
    replace (List.find _ us) with (@None User.t); [reflexivity|].
    symmetry. apply find_None_elem. intros u Hu.
    apply bool_decide_eq_false. intros Heq. apply (Hnone u Hu). by rewrite Heq.
  - by intros ->.
Qed.
End AuthLogin.

(** *** The auth properties on sample data *)

Example sample_email_setter :
  Platform.email_setter sample_platform " Bob@Example.com" = "bob@example.com".
Proof. reflexivity. Qed.

Lemma sample_users_fresh email :
  Platform.email_setter sample_platform email <> "ann@example.com" ->
  forall u, u ∈ sample_users ->
    ~ has_email sample_platform email u /\ User._id u <> mkObjectId bob_id.
Proof.
  intros Hne u Hu. apply list_elem_of_singleton in Hu. subst u.
  split; [|discriminate]. intros Heq. apply Hne. symmetry. exact Heq.
Qed.

Lemma register_duplicate_email_conflict_witness :
  settles (authController.register (the_authService sample_platform)
             sample_env signup_ann) sample_users
  = Fulfilled (Response.mk 409 false None
                 (Some "User with this email already exists."))
  /\ leaves (authController.register (the_authService sample_platform)
               sample_env signup_ann) sample_users = sample_users.
Proof.
  apply (register_duplicate_email_conflict sample_platform sample_env signup_ann
           sample_users sample_ann); [reflexivity|reflexivity|constructor|reflexivity].
Defined.

Lemma register_stores_hashed_user_witness :
  leaves (authController.register (the_authService sample_platform)
            sample_env signup_bob) sample_users
  = sample_users
      ++ [ User.mk (mkObjectId bob_id) "bob@example.com" "$salt$hunter2" "marketer"
                   (Profile.mk (Some "Bob") None None) 1000 (Some 1001) ].
Proof.
  refine (proj2 (register_stores_hashed_user sample_platform sample_env signup_bob
                   sample_users eq_refl eq_refl _ _ _)).
  - apply sample_users_fresh. discriminate.
  - discriminate.
  - discriminate.
Defined.

Lemma registerUser_keeps_users_unique_witness :
  NoDup (map User.email
           (leaves (authService.registerUser sample_platform sample_env
                      "bob@example.com" "hunter2" None None) sample_users)).
Proof.
  refine (proj2 (registerUser_keeps_users_unique sample_platform sample_env
                   "bob@example.com" "hunter2" None None sample_users _ _));
    apply NoDup_singleton.
Defined.

Lemma login_after_register_witness :
  settles (authService.loginUser sample_platform sample_env
             "bob@example.com" "hunter2")
    (leaves (authService.registerUser sample_platform sample_env
               "bob@example.com" "hunter2" None None) sample_users)
  = Fulfilled
      (Login.mk (Some "jwt.65a1f0000000000000000b02.marketer")
         (Some (PublicUser.mk (mkObjectId bob_id) "bob@example.com" "marketer"
                  (Profile.mk None None None)))).
Proof.
  refine (login_after_register sample_platform sample_env sample_env
            "bob@example.com" "hunter2" None None sample_users _ _ _);
    reflexivity.
Defined.

Lemma login_bad_credentials_witness :
  authController.login (the_authService sample_platform) sample_env signup_ann
    sample_users
  = (Fulfilled (Response.mk 401 false None (Some "Invalid credentials.")),
     sample_users).
Proof.
  refine (proj2 (login_bad_credentials sample_platform sample_env signup_ann
                   sample_users eq_refl eq_refl _)).
  intros u Hu _. apply list_elem_of_singleton in Hu. by subst u.
Defined.

Lemma login_valid_credentials_witness :
  authController.login (the_authService sample_platform) sample_env login_ann
    sample_users
  = (Fulfilled (Response.mk 200 true
                  (Some (Login.mk (Some "jwt.65a1f0000000000000000b01.admin")
                           (Some (PublicUser.mk (mkObjectId ann_id)
                                    "ann@example.com" "admin"
                                    (Profile.mk (Some "Ann") None None)))))
                  (Some "Login successful.")), sample_users).
Proof.
  refine (login_valid_credentials sample_platform sample_env login_ann
            sample_users sample_ann eq_refl eq_refl _ _ _ _ _).
  - apply NoDup_singleton.
  - constructor.
  - reflexivity.
  - reflexivity.
  - discriminate.
Defined.

Lemma getProfile_found_or_404_witness :
  settles (authController.getProfile (the_authService sample_platform) login_ann)
    sample_users
  = Fulfilled (Response.mk 200 true
                 (Some (UserData.mk (mkObjectId ann_id) "ann@example.com" "admin"
                          (Profile.mk (Some "Ann") None None) 10 (Some 11)))
                 None)
  /\ settles (authController.getProfile (the_authService sample_platform) login_stale)
       sample_users
     = Fulfilled (Response.mk 500 false None
                    (Some "Failed to retrieve user profile.")).
Proof.
  split.
  - refine (proj1 (getProfile_found_or_404 sample_platform login_ann sample_users
                     eq_refl _) sample_ann _ _).
    + apply NoDup_singleton.
    + constructor.
    + reflexivity.
  - refine (proj2 (proj2 (getProfile_found_or_404 sample_platform login_stale
                            sample_users eq_refl _)) _).
    + apply NoDup_singleton.
    + reflexivity.
Defined.

(** ** The metrics-collection agent *)

Lemma Zsum_app l l' : Zsum (l ++ l') = Zsum l + Zsum l'.
Proof. induction l as [|x l IH]; simpl; [done|]. rewrite IH. lia. Qed.

Section Agent.
Context {W : Type}.
Variable google meta : MetricsQuery.t -> Async W RawMetrics.t.
Variable save : AggregatedMetrics.t -> Async W unit.
Variable now : Z.

Lemma add_channel_total channel data m :
  Metrics.mk (AggregatedMetrics.impressions m) (AggregatedMetrics.clicks m)
             (AggregatedMetrics.conversions m) (AggregatedMetrics.cost m)
  = ChannelData_total (AggregatedMetrics.channelData m) ->
  let m' := analyticsAgent.add_channel channel data m in
  Metrics.mk (AggregatedMetrics.impressions m') (AggregatedMetrics.clicks m')
             (AggregatedMetrics.conversions m') (AggregatedMetrics.cost m')
  = ChannelData_total (AggregatedMetrics.channelData m').
Proof.
  unfold ChannelData_total. intros [= Hi Hk Hv Hc]. simpl.
  rewrite !map_app, !Zsum_app, Qcsum_app. simpl.
  rewrite Hi, Hk, Hv, Hc. f_equal; try lia. ring.
Qed.


(** X17. The agent never gets to save: the analytics service exports no
    [saveCampaignMetrics], so whatever the platforms answer, collecting the
    metrics of a campaign is rejected, and collecting those of a list of
    campaigns is rejected at its first campaign when there is one. *)
Theorem collectCampaignMetrics_always_rejects campaign rest w :
  (exists err,
     settles (analyticsAgent.collectCampaignMetrics google meta save now campaign) w
     = Thrown err)
  /\ (exists err,
        settles (analyticsAgent.collectAllCampaignsMetrics google meta save now
                   (campaign :: rest)) w
        = Thrown err
        /\ analyticsAgent.collectAllCampaignsMetrics google meta save now
             (campaign :: rest) w
           = analyticsAgent.collectCampaignMetrics google meta save now campaign w).
Proof.
  assert (Hone : exists err w',
            analyticsAgent.collectCampaignMetrics google meta save now campaign w
            = (Thrown err, w')).
  { unfold analyticsAgent.collectCampaignMetrics, catching, and_then, reject.
    destruct (analyticsAgent.aggregate_campaign google meta now campaign w)
      as [[m|e] w1]; simpl; by eexists _, _. }
  destruct Hone as (err & w' & Hone). split.
  - exists err. unfold settles. by rewrite Hone.
  - exists err. unfold settles. simpl. unfold and_then. by rewrite Hone.
Qed.
End Agent.

(** ** Integrations *)

Lemma has_id_true id d : IntegrationModel.has_id id d = true <-> IntegrationDoc._id d = id.
Proof. unfold IntegrationModel.has_id. apply bool_decide_eq_true. Qed.

Lemma has_id_false id d : IntegrationModel.has_id id d = false <-> IntegrationDoc._id d <> id.
Proof. unfold IntegrationModel.has_id. apply bool_decide_eq_false. Qed.

Lemma replace_first_ids id doc docs :
  IntegrationDoc._id doc = id ->
  Integration_ids (IntegrationModel.replace_first id doc docs) = Integration_ids docs.
Proof.
  intros Hid. induction docs as [|d docs IH]; simpl; [done|].
  destruct (IntegrationModel.has_id id d) eqn:Hd; simpl.
  - apply has_id_true in Hd. by rewrite Hid, Hd.
  - by rewrite IH.
Qed.

Lemma replace_first_others id doc docs :
  IntegrationDoc._id doc = id ->
  Integration_others id (IntegrationModel.replace_first id doc docs)
  = Integration_others id docs.
Proof.
  intros Hid. unfold Integration_others.
  induction docs as [|d docs IH]; simpl; [done|].
  destruct (IntegrationModel.has_id id d) eqn:Hd; simpl.
  - apply has_id_true in Hid. by rewrite Hid.
  - by rewrite Hd, IH.
Qed.

Lemma replace_first_elem id doc docs :
  id ∈ Integration_ids docs -> doc ∈ IntegrationModel.replace_first id doc docs.
Proof.
  induction docs as [|d docs IH]; simpl; [by intros ?%elem_of_nil|].
  intros Hin. destruct (IntegrationModel.has_id id d) eqn:Hd; [by left|].
  right. apply IH. apply elem_of_cons in Hin as [Heq|Hin]; [|done].
  apply has_id_false in Hd. by destruct Hd.
Qed.

Lemma remove_first_others id docs :
  NoDup (Integration_ids docs) ->
  IntegrationModel.remove_first id docs = Integration_others id docs.
Proof.
  unfold Integration_others.
  induction docs as [|d docs IH]; simpl; [done|].
  intros [Hd Hnd]%NoDup_cons.
  destruct (IntegrationModel.has_id id d) eqn:Hid; simpl.
  - apply has_id_true in Hid. symmetry.
    rewrite List.forallb_filter_id; [done|].
    apply forallb_forall. intros d' Hd'. apply negb_true_iff, has_id_false.
    intros Heq. apply Hd. rewrite Hid, <- Heq.
    apply list_elem_of_In. by apply in_map.
  - by rewrite IH.
Qed.

Lemma find_id_None id docs :
  List.find (IntegrationModel.has_id id) docs = None <-> id ∉ Integration_ids docs.
Proof.
  rewrite find_None_elem. unfold Integration_ids. split.
  - intros Hnone Hin. apply list_elem_of_In, in_map_iff in Hin as (d & Hd & Hin).
    apply list_elem_of_In in Hin. specialize (Hnone d Hin).
    by apply has_id_false in Hnone.
  - intros Hnot d Hd. apply has_id_false. intros Heq. apply Hnot.
    rewrite <- Heq. apply list_elem_of_In, in_map. by apply list_elem_of_In.
Qed.

Lemma find_id_Some id docs d :
  List.find (IntegrationModel.has_id id) docs = Some d ->
  d ∈ docs /\ IntegrationDoc._id d = id /\ id ∈ Integration_ids docs.
Proof.
  intros Hf. apply find_Some_elem in Hf as [Hin Hid]. apply has_id_true in Hid.
  split; [done|]. split; [done|]. rewrite <- Hid.
  apply list_elem_of_In, in_map. by apply list_elem_of_In.
Qed.

Lemma find_id_unique docs d :
  NoDup (Integration_ids docs) -> d ∈ docs ->
  List.find (IntegrationModel.has_id (IntegrationDoc._id d)) docs = Some d.
Proof. intros Hnd Hd. apply (find_unique IntegrationDoc._id docs d Hnd Hd). Qed.

Section Integrations.
Variable cast : Cast.

(** X18. Each function of the integration service rejects, with its own
    message and before it touches the collection, when its required
    identifier is missing: the company or the platform for
    [createIntegration], the integration identifier for
    [getIntegrationById], [updateIntegration] and [deleteIntegration], the
    integration identifier or the code for [handleOAuthCallback]. *)
Theorem integration_identifiers_required env companyId integrationId
    integrationData code state docs :
  (~ given companyId ->
   integrationDocs.createIntegration cast env companyId integrationData docs
   = (Thrown (Error_new "companyId is required to create an integration."), docs))
  /\ (given companyId -> ~ given (IntegrationData.platform integrationData) ->
      integrationDocs.createIntegration cast env companyId integrationData docs
      = (Thrown (Error_new "Platform is required to create an integration."), docs))
  /\ (~ given integrationId ->
      integrationDocs.getIntegrationById cast integrationId docs
      = (Thrown (Error_new "integrationId is required."), docs)
      /\ integrationDocs.updateIntegration cast integrationId integrationData docs
         = (Thrown (Error_new "integrationId is required to update an integration."),
            docs)
      /\ integrationDocs.deleteIntegration cast integrationId docs
         = (Thrown (Error_new "integrationId is required to delete an integration."),
            docs))
  /\ (~ (given integrationId /\ given code) ->
      integrationDocs.handleOAuthCallback cast env integrationId code state docs
      = (Thrown (Error_new "integrationId and code are required for OAuth callback."),
         docs)).
Proof.
  unfold given. split; [|split; [|split]].
  - intros Hc%not_true_is_false.
    unfold integrationDocs.createIntegration. by rewrite Hc.
  - intros Hc Hp%not_true_is_false.
    unfold integrationDocs.createIntegration. by rewrite Hc, Hp.
  - intros Hi%not_true_is_false.
    unfold integrationDocs.getIntegrationById, integrationDocs.updateIntegration,
      integrationDocs.deleteIntegration.
    by rewrite Hi.
  - intros Hmiss. unfold integrationDocs.handleOAuthCallback.
    destruct (truthy integrationId), (truthy code); try done.
    by destruct Hmiss.
Qed.

Lemma createIntegration_run env companyId integrationData docs owner :
  given companyId ->
  given (IntegrationData.platform integrationData) ->
  IntegrationModel.cast_path cast
    (overriding (IntegrationData.companyId integrationData) companyId)
  = Some owner ->
  default "active" (IntegrationData.status integrationData)
    ∈ IntegrationModel.status_enum ->
  Env.ObjectId env ∉ Integration_ids docs ->
  let doc := IntegrationModel.touch env
               (IntegrationModel.create cast env companyId integrationData) in
  integrationDocs.createIntegration cast env companyId integrationData docs
  = (Fulfilled doc, docs ++ [doc]).
Proof.
  intros Hc Hp Ho Hs Hfresh doc. subst doc. unfold given in *.
  unfold integrationDocs.createIntegration, and_then, IntegrationModel.save_new.
  rewrite Hc, Hp; simpl.
  unfold IntegrationModel.valid; simpl.
  rewrite Ho, Hp, (bool_decide_eq_true_2 _ Hs); simpl.
  replace (existsb _ docs) with false; [reflexivity|].
  symmetry. apply existsb_false_iff. intros d Hd. apply has_id_false.
  intros Heq. apply Hfresh. rewrite <- Heq.
  apply list_elem_of_In, in_map. by apply list_elem_of_In.
Qed.

(** A creation whose company is no ObjectId stores nothing: the schema's
    validation rejects the document. *)
Lemma createIntegration_cast_error env companyId integrationData docs :
  given companyId ->
  given (IntegrationData.platform integrationData) ->
  IntegrationModel.cast_path cast
    (overriding (IntegrationData.companyId integrationData) companyId)
  = None ->
  integrationDocs.createIntegration cast env companyId integrationData docs
  = (Thrown IntegrationModel.ValidationError, docs).
Proof.
  unfold given. intros Hc Hp Ho.
  unfold integrationDocs.createIntegration, and_then, IntegrationModel.save_new.
  rewrite Hc, Hp; simpl.
  unfold IntegrationModel.valid; simpl. by rewrite Ho.
Qed.

(** X19. A creation that passes the schema stores exactly one more
    integration, last in the collection.  It belongs to the company named in
    the data when the data names one, and to the company of the first
    argument only otherwise, cast to an ObjectId; its status is the one of
    the data, [active] by default, and both its timestamps are set.  When
    the company that is to own it is no ObjectId the creation is rejected
    and stores nothing. *)
Theorem createIntegration_stores env companyId integrationData docs :
  let owner :=
    IntegrationModel.cast_path cast
      (overriding (IntegrationData.companyId integrationData) companyId) in
  let status := default "active" (IntegrationData.status integrationData) in
  given companyId ->
  given (IntegrationData.platform integrationData) ->
  (is_Some owner ->
   status ∈ IntegrationModel.status_enum ->
   Env.ObjectId env ∉ Integration_ids docs ->
   exists doc,
     integrationDocs.createIntegration cast env companyId integrationData docs
     = (Fulfilled doc, docs ++ [doc])
     /\ IntegrationDoc._id doc = Env.ObjectId env
     /\ IntegrationDoc.companyId doc = owner
     /\ IntegrationDoc.platform doc = IntegrationData.platform integrationData
     /\ IntegrationDoc.status doc = status
     /\ IntegrationDoc.createdAt doc = Env.Date_now env
     /\ IntegrationDoc.updatedAt doc = Some (Env.Date_new env))
  /\ (owner = None ->
      integrationDocs.createIntegration cast env companyId integrationData docs
      = (Thrown IntegrationModel.ValidationError, docs)).
Proof.
  intros owner status Hc Hp. split.
  - intros [o Ho] Hs Hfresh.
    eexists. split; [by eapply createIntegration_run|]. simpl. auto 10.
  - intros Ho. by apply createIntegration_cast_error.
Qed.

Lemma deleteIntegration_run integrationId id docs :
  given integrationId ->
  cast (js_to_string integrationId) = Some id ->
  NoDup (Integration_ids docs) ->
  integrationDocs.deleteIntegration cast integrationId docs
  = (Fulfilled (bool_decide (id ∈ Integration_ids docs)), Integration_others id docs).
Proof.
  unfold given. intros Hi Hcast Hnd.
  unfold integrationDocs.deleteIntegration, and_then,
    IntegrationModel.findByIdAndDelete, resolve.
  rewrite Hi; simpl. rewrite Hcast. rewrite (remove_first_others id docs Hnd).
  f_equal. f_equal. apply bool_decide_ext.
  destruct (List.find (IntegrationModel.has_id id) docs) as [d|] eqn:Hf.
  - apply find_id_Some in Hf as (_ & _ & Hin). split; [done|by eexists].
  - apply find_id_None in Hf. split; [by intros [? ?]|done].
Qed.

(** X20. With unrepeated identifiers in the collection, deleting by an
    identifier that is an ObjectId answers whether a document was under it
    and leaves exactly the documents under the other identifiers;
    afterwards the identifier is not found, and deleting it again answers
    [false].  Deleting by an identifier that is no ObjectId is rejected and
    leaves the collection as it was. *)
Theorem deleteIntegration_removes integrationId docs :
  given integrationId ->
  NoDup (Integration_ids docs) ->
  match cast (js_to_string integrationId) with
  | Some id =>
      integrationDocs.deleteIntegration cast integrationId docs
      = (Fulfilled (bool_decide (id ∈ Integration_ids docs)),
         Integration_others id docs)
      /\ integrationDocs.getIntegrationById cast integrationId
           (Integration_others id docs)
         = (Fulfilled None, Integration_others id docs)
      /\ integrationDocs.deleteIntegration cast integrationId
           (Integration_others id docs)
         = (Fulfilled false, Integration_others id docs)
  | None =>
      integrationDocs.deleteIntegration cast integrationId docs
      = (Thrown CastError_new, docs)
  end.
Proof.
  intros Hi Hnd.
  destruct (cast (js_to_string integrationId)) as [id|] eqn:Hcast.
  2: { unfold given in Hi.
       unfold integrationDocs.deleteIntegration, and_then,
         IntegrationModel.findByIdAndDelete.
       rewrite Hi; simpl. by rewrite Hcast. }
  assert (Hgone : id ∉ Integration_ids (Integration_others id docs)).
  { unfold Integration_ids, Integration_others. intros Hin.
    apply list_elem_of_In, in_map_iff in Hin as (d & Hd & Hin).
    apply List.filter_In in Hin as [_ Hne].
    apply negb_true_iff, has_id_false in Hne. done. }
  assert (Hnd' : NoDup (Integration_ids (Integration_others id docs))).
  { unfold Integration_ids, Integration_others. clear -Hnd.
    induction docs as [|d docs IH]; simpl; [constructor|].
    apply NoDup_cons in Hnd as [Hd Hnd].
    destruct (negb _); simpl; [|by apply IH].
    apply NoDup_cons. split; [|by apply IH].
    intros Hin. apply Hd.
    apply list_elem_of_In, in_map_iff in Hin as (d' & Heq & Hin).
    apply List.filter_In in Hin as [Hin _]. rewrite <- Heq.
    apply list_elem_of_In. by apply in_map. }
  split; [by apply deleteIntegration_run|]. split.
  - unfold given in Hi.
    unfold integrationDocs.getIntegrationById, and_then,
      IntegrationModel.findById, resolve.
    rewrite Hi; simpl. rewrite Hcast.
    by rewrite (proj2 (find_id_None id _) Hgone).
  - rewrite (deleteIntegration_run _ id _ Hi Hcast Hnd').
    rewrite (bool_decide_eq_false_2 _ Hgone).
    f_equal. unfold Integration_others.
    rewrite List.forallb_filter_id; [done|].
    apply forallb_forall. intros d Hd. by apply List.filter_In in Hd as [_ ?].
Qed.

(** X21. Updating by an identifier that is an ObjectId, with updates that
    cast, keeps the identifiers of the collection and every document under
    another identifier.  When no document is under the identifier it answers
    [null] and changes nothing; otherwise it answers the stored document
    with the paths the updates name set to their values and every other
    path, the timestamps included, as it was, and that document is what the
    collection then holds.  With an identifier that is no ObjectId, or a
    company in the updates that is none, the update is rejected and changes
    nothing. *)
Theorem updateIntegration_sets integrationId updates docs :
  let docs' :=
    leaves (integrationDocs.updateIntegration cast integrationId updates) docs in
  given integrationId ->
  NoDup (Integration_ids docs) ->
  match cast (js_to_string integrationId) with
  | Some id =>
      if IntegrationModel.updates_cast cast updates then
        Integration_ids docs' = Integration_ids docs
        /\ Integration_others id docs' = Integration_others id docs
        /\ (id ∉ Integration_ids docs ->
            integrationDocs.updateIntegration cast integrationId updates docs
            = (Fulfilled None, docs))
        /\ (forall old, old ∈ docs -> IntegrationDoc._id old = id ->
            let doc := IntegrationModel.set_fields cast updates old in
            settles (integrationDocs.updateIntegration cast integrationId updates)
                    docs
            = Fulfilled (Some doc)
            /\ doc ∈ docs'
            /\ IntegrationDoc._id doc = id
            /\ IntegrationDoc.platform doc
               = overriding (IntegrationData.platform updates)
                            (IntegrationDoc.platform old)
            /\ IntegrationDoc.status doc
               = default (IntegrationDoc.status old) (IntegrationData.status updates)
            /\ IntegrationDoc.createdAt doc = IntegrationDoc.createdAt old
            /\ IntegrationDoc.updatedAt doc = IntegrationDoc.updatedAt old)
      else
        integrationDocs.updateIntegration cast integrationId updates docs
        = (Thrown CastError_new, docs)
  | None =>
      integrationDocs.updateIntegration cast integrationId updates docs
      = (Thrown CastError_new, docs)
  end.
Proof.
  intros docs'. unfold given. intros Hi Hnd. subst docs'.
  unfold leaves, settles, integrationDocs.updateIntegration,
    IntegrationModel.findByIdAndUpdate, and_then, resolve.
  rewrite Hi; simpl.
  destruct (cast (js_to_string integrationId)) as [id|] eqn:Hcast; [|done].
  destruct (IntegrationModel.updates_cast cast updates); simpl; [|done].
  destruct (List.find (IntegrationModel.has_id id) docs) as [d|] eqn:Hfind; simpl.
  - apply find_id_Some in Hfind as Hd. destruct Hd as (Hd & Hdid & Hin).
    split; [by apply replace_first_ids|].
    split; [by apply replace_first_others|].
    split; [done|].
    intros old Hold Hoid.
    assert (old = d) as ->.
    { pose proof (find_id_unique docs old Hnd Hold) as Hf.
      rewrite Hoid, Hfind in Hf. by injection Hf. }
    split; [done|]. split; [by apply replace_first_elem|]. done.
  - apply find_id_None in Hfind.
    split; [done|]. split; [done|]. split; [done|].
    intros old Hold Hoid. exfalso. apply Hfind. rewrite <- Hoid.
    apply list_elem_of_In, in_map. by apply list_elem_of_In.
Qed.

Lemma oauth_meta_lookup env meta code state :
  let m := integrationDocs.oauth_meta env meta code state in
  m !! "codeUsed" = Some (MetaString (js_to_string code))
  /\ m !! "lastOAuthUpdate" = Some (MetaDate (Env.Date_now env))
  /\ (forall s, state = Some s -> m !! "stateUsed" = Some (MetaString s))
  /\ forall k, k <> "stateUsed" -> k <> "codeUsed" -> k <> "lastOAuthUpdate" ->
       m !! k = default ∅ meta !! k.
Proof.
  unfold integrationDocs.oauth_meta. cbv zeta. split; [|split; [|split]].
  - rewrite lookup_insert_ne by done. by rewrite lookup_insert_eq.
  - rewrite !lookup_insert_ne by done. by rewrite lookup_insert_eq.
  - intros s ->. by rewrite lookup_insert_eq.
  - intros k H1 H2 H3. by rewrite !lookup_insert_ne by done.
Qed.

(** X22. An OAuth callback for an identifier that is an ObjectId keeps the
    identifiers of the collection and every document under another
    identifier.  For an identifier nothing is under it answers [null] and
    changes nothing.  For a stored integration that has its company and
    platform it stores and answers the integration made [active], with the
    mock tokens, a fresh [updatedAt], and a [meta] that records the code and
    the instant and keeps every other key it had; the company, platform,
    account and creation time stay.  For an identifier that is no ObjectId
    the callback is rejected and changes nothing. *)
Theorem handleOAuthCallback_activates env integrationId code state docs :
  let run := integrationDocs.handleOAuthCallback cast env integrationId code state in
  given integrationId ->
  given code ->
  NoDup (Integration_ids docs) ->
  match cast (js_to_string integrationId) with
  | Some id =>
      Integration_ids (leaves run docs) = Integration_ids docs
      /\ Integration_others id (leaves run docs) = Integration_others id docs
      /\ (id ∉ Integration_ids docs -> run docs = (Fulfilled None, docs))
      /\ (forall old, old ∈ docs -> IntegrationDoc._id old = id ->
          is_Some (IntegrationDoc.companyId old) ->
          given (IntegrationDoc.platform old) ->
          exists doc m,
            settles run docs = Fulfilled (Some doc)
            /\ doc ∈ leaves run docs
            /\ IntegrationDoc._id doc = id
            /\ IntegrationDoc.status doc = "active"
            /\ IntegrationDoc.accessToken doc = Some "mock_access_token"
            /\ IntegrationDoc.refreshToken doc = Some "mock_refresh_token"
            /\ IntegrationDoc.updatedAt doc = Some (Env.Date_new env)
            /\ IntegrationDoc.companyId doc = IntegrationDoc.companyId old
            /\ IntegrationDoc.platform doc = IntegrationDoc.platform old
            /\ IntegrationDoc.accountId doc = IntegrationDoc.accountId old
            /\ IntegrationDoc.createdAt doc = IntegrationDoc.createdAt old
            /\ IntegrationDoc.meta doc = Some m
            /\ m !! "codeUsed" = Some (MetaString (js_to_string code))
            /\ m !! "lastOAuthUpdate" = Some (MetaDate (Env.Date_now env))
            /\ forall k, k <> "stateUsed" -> k <> "codeUsed" ->
                 k <> "lastOAuthUpdate" ->
                 m !! k = default ∅ (IntegrationDoc.meta old) !! k)
  | None => run docs = (Thrown CastError_new, docs)
  end.
Proof.
  intros run. unfold given. intros Hi Hc Hnd. subst run.
  unfold leaves, settles, integrationDocs.handleOAuthCallback,
    IntegrationModel.findById, IntegrationModel.save_found, and_then, resolve.
  rewrite Hi, Hc; simpl.
  destruct (cast (js_to_string integrationId)) as [id|] eqn:Hcast; [|done].
  destruct (List.find (IntegrationModel.has_id id) docs) as [d|] eqn:Hfind; simpl.
  - apply find_id_Some in Hfind as Hd. destruct Hd as (Hd & Hdid & Hin).
    unfold IntegrationModel.valid; simpl.
    assert (Hold : forall old, old ∈ docs -> IntegrationDoc._id old = id -> old = d).
    { intros old Hold Hoid. pose proof (find_id_unique docs old Hnd Hold) as Hf.
      rewrite Hoid, Hfind in Hf. by injection Hf. }
    destruct (bool_decide_reflect (is_Some (IntegrationDoc.companyId d)))
      as [Hcomp|Hcomp];
      destruct (truthy (IntegrationDoc.platform d)) eqn:Hplat; simpl.
    + rewrite Hdid.
      split; [by apply replace_first_ids|].
      split; [by apply replace_first_others|].
      split; [done|].
      intros old Ho Hoid _ _. rewrite (Hold old Ho Hoid).
      destruct (oauth_meta_lookup env (IntegrationDoc.meta d) code state)
        as (Hcode & Hdate & _ & Hkeep).
      eexists _, _. split; [reflexivity|].
      split; [by apply replace_first_elem|]. simpl. auto 15.
    + split; [done|]. split; [done|]. split; [done|].
      intros old Ho Hoid _ Hp. rewrite (Hold old Ho Hoid) in Hp. congruence.
    + split; [done|]. split; [done|]. split; [done|].
      intros old Ho Hoid Hcm _. rewrite (Hold old Ho Hoid) in Hcm. done.
    + split; [done|]. split; [done|]. split; [done|].
      intros old Ho Hoid Hcm _. rewrite (Hold old Ho Hoid) in Hcm. done.
  - apply find_id_None in Hfind.
    split; [done|]. split; [done|]. split; [done|].
    intros old Hold Hoid. exfalso. apply Hfind. rewrite <- Hoid.
    apply list_elem_of_In, in_map. by apply list_elem_of_In.
Qed.

(** X23. After a creation that passes the schema, the listing of a company
    is its listing from before, followed by the new integration exactly
    when that company is the owner the creation stored: the company named
    in the data when the data names one.  An integration created with
    another company in its data is therefore not listed under the company
    of the first argument.  A listing asked for with an identifier that is
    no ObjectId is rejected. *)
Theorem created_integration_listed_under_owner env companyId integrationData docs owner :
  given companyId ->
  given (IntegrationData.platform integrationData) ->
  IntegrationModel.cast_path cast
    (overriding (IntegrationData.companyId integrationData) companyId)
  = Some owner ->
  default "active" (IntegrationData.status integrationData)
    ∈ IntegrationModel.status_enum ->
  Env.ObjectId env ∉ Integration_ids docs ->
  exists doc,
    integrationDocs.createIntegration cast env companyId integrationData docs
    = (Fulfilled doc, docs ++ [doc])
    /\ forall company,
         given company ->
         match cast (js_to_string company) with
         | Some c =>
             settles (integrationDocs.getIntegrations cast company) docs
             = Fulfilled (Integration_of_company c docs)
             /\ settles (integrationDocs.getIntegrations cast company) (docs ++ [doc])
                = Fulfilled (Integration_of_company c docs
                               ++ if bool_decide (owner = c) then [doc] else [])
         | None =>
             settles (integrationDocs.getIntegrations cast company) (docs ++ [doc])
             = Thrown CastError_new
         end.
Proof.
  intros Hc Hp Ho Hs Hfresh.
  pose proof (createIntegration_run env companyId integrationData docs owner
                Hc Hp Ho Hs Hfresh) as Hrun. cbv zeta in Hrun.
  set (doc := IntegrationModel.touch env
                (IntegrationModel.create cast env companyId integrationData)) in *.
  assert (Hown : IntegrationDoc.companyId doc = Some owner) by exact Ho.
  exists doc. split; [exact Hrun|].
  intros company Hg.
  unfold settles, integrationDocs.getIntegrations, and_then,
    IntegrationModel.find_company, resolve.
  unfold given in Hg. rewrite Hg; simpl.
  destruct (cast (js_to_string company)) as [c|]; [|done].
  split; [done|]. simpl.
  rewrite List.filter_app. do 2 f_equal.
  change (List.filter _ [doc])
    with (if bool_decide (IntegrationDoc.companyId doc = Some c)
          then [doc] else []).
  rewrite Hown.
  replace (bool_decide (Some owner = Some c)) with (bool_decide (owner = c)); [done|].
  apply bool_decide_ext. split; [by intros ->|by intros [= ->]].
Qed.
End Integrations.

(** *** The integration and agent properties on sample data *)

Lemma sample_integrations_NoDup : NoDup (Integration_ids sample_integrations).
Proof.
  apply NoDup_cons. split; [|apply NoDup_singleton].
  intros Hin%list_elem_of_singleton. discriminate Hin.
Qed.

Lemma sample_env_fresh : Env.ObjectId sample_env ∉ Integration_ids sample_integrations.
Proof.
  intros Hin. apply elem_of_cons in Hin as [Hin|Hin]; [discriminate|].
  apply list_elem_of_singleton in Hin. discriminate.
Qed.

Lemma createIntegration_stores_witness :
  (exists doc,
     leaves (integrationDocs.createIntegration ObjectId_of_hex sample_env (Some acme)
               facebook_for_globex) sample_integrations
     = sample_integrations ++ [doc]
     /\ IntegrationDoc.companyId doc = Some (mkObjectId globex)
     /\ IntegrationDoc.status doc = "active")
  /\ integrationDocs.createIntegration ObjectId_of_hex sample_env (Some "acme")
       facebook_only sample_integrations
     = (Thrown IntegrationModel.ValidationError, sample_integrations).
Proof.
  split.
  - destruct (proj1 (createIntegration_stores ObjectId_of_hex sample_env (Some acme)
                       facebook_for_globex sample_integrations eq_refl eq_refl))
      as (doc & Hrun & _ & Hown & _ & Hst & _).
    + by eexists.
    + by left.
    + apply sample_env_fresh.
    + exists doc. unfold leaves. rewrite Hrun. auto.
  - exact (proj2 (createIntegration_stores ObjectId_of_hex sample_env (Some "acme")
                    facebook_only sample_integrations eq_refl eq_refl) eq_refl).
Defined.

Lemma deleteIntegration_removes_witness :
  integrationDocs.deleteIntegration ObjectId_of_hex (Some int1) sample_integrations
  = (Fulfilled true, [ other_integration ])
  /\ integrationDocs.deleteIntegration ObjectId_of_hex (Some "int1") sample_integrations
     = (Thrown CastError_new, sample_integrations).
Proof.
  split.
  - exact (proj1 (deleteIntegration_removes ObjectId_of_hex (Some int1)
                    sample_integrations eq_refl sample_integrations_NoDup)).
  - exact (deleteIntegration_removes ObjectId_of_hex (Some "int1")
             sample_integrations eq_refl sample_integrations_NoDup).
Defined.

Lemma updateIntegration_sets_witness :
  settles (integrationDocs.updateIntegration ObjectId_of_hex (Some int1) pause_updates)
    sample_integrations
  = Fulfilled (Some (IntegrationModel.set_fields ObjectId_of_hex pause_updates
                       sample_integration)).
Proof.
  destruct (updateIntegration_sets ObjectId_of_hex (Some int1) pause_updates
              sample_integrations eq_refl sample_integrations_NoDup)
    as (_ & _ & _ & Hfound).
  apply (Hfound sample_integration); [by left|reflexivity].
Defined.

Lemma handleOAuthCallback_activates_witness :
  exists doc m,
    settles (integrationDocs.handleOAuthCallback ObjectId_of_hex sample_env
               (Some int1) (Some "code-42") None) sample_integrations
    = Fulfilled (Some doc)
    /\ IntegrationDoc.status doc = "active"
    /\ IntegrationDoc.meta doc = Some m
    /\ m !! "region" = Some (MetaString "eu")
    /\ m !! "codeUsed" = Some (MetaString "code-42").
Proof.
  destruct (handleOAuthCallback_activates ObjectId_of_hex sample_env (Some int1)
              (Some "code-42") None sample_integrations eq_refl eq_refl
              sample_integrations_NoDup)
    as (_ & _ & _ & Hfound).
  destruct (Hfound sample_integration) as (doc & m & H);
    [by left|done|by eexists|done|].
  destruct H as (Hrun & _ & _ & Hst & _ & _ & _ & _ & _ & _ & _ & Hm & Hcode & _ & Hkeep).
  exists doc, m. split; [exact Hrun|]. split; [exact Hst|]. split; [exact Hm|].
  split; [|exact Hcode]. by rewrite Hkeep.
Defined.


Lemma created_integration_listed_under_owner_witness :
  exists doc,
    integrationDocs.createIntegration ObjectId_of_hex sample_env (Some acme)
      facebook_for_globex sample_integrations
    = (Fulfilled doc, sample_integrations ++ [doc])
    /\ settles (integrationDocs.getIntegrations ObjectId_of_hex (Some acme))
         (sample_integrations ++ [doc])
       = Fulfilled [ sample_integration ]
    /\ settles (integrationDocs.getIntegrations ObjectId_of_hex (Some globex))
         (sample_integrations ++ [doc])
       = Fulfilled [ other_integration; doc ].
Proof.
  destruct (created_integration_listed_under_owner ObjectId_of_hex sample_env
              (Some acme) facebook_for_globex sample_integrations
              (mkObjectId globex) eq_refl eq_refl eq_refl)
    as (doc & Hrun & Hlist).
  - by left.
  - apply sample_env_fresh.
  - exists doc. split; [exact Hrun|]. split.
    + exact (proj2 (Hlist (Some acme) eq_refl)).
    + exact (proj2 (Hlist (Some globex) eq_refl)).
Defined.
